(** * PaymentService: order / payment lifecycle of services/PaymentService.js

    A shallow embedding of the [PaymentService] class: its two in-memory
    [Map]s ([orders], [payments]), the plan table, and the methods
    [createOrder], [verifyPayment], [handlePaymentFailure],
    [getPaymentStatus], [getUserPayments], [validateWebhook] and
    [processWebhook].  Every method is a function from the store (and the
    readings it takes from its environment: the clock, [Math.random]) to the
    new store and either a returned value or a thrown error. *)

From Stdlib Require Import ZArith List String Ascii Bool Lia.
From Stdlib Require Import QArith.
From Stdlib Require Import DecimalString DecimalPos DecimalZ.
From Stdlib Require Import Sorted Permutation.
Import ListNotations.

Local Open Scope string_scope.
Local Open Scope list_scope.
Local Open Scope Z_scope.

(** String concatenation, as in a JavaScript template literal. *)
Infix "+:+" := String.append (at level 60, right associativity).

(* ===================================================================== *)
(** ** Node's [crypto.createHmac('sha256', key).update(msg).digest('hex')]

    The [crypto] module is not part of the repository; it is modelled by
    its specification: SHA-256 (FIPS 180-4) under the HMAC construction
    (RFC 2104), rendered as lowercase hexadecimal.  32-bit words are [Z]
    with the wrap-around written out; a JavaScript string is hashed through
    its UTF-8 bytes, which is what a [string] holds here. *)

Module Crypto.

Definition w32 (x : Z) : Z := Z.land x 0xFFFFFFFF.
Definition add32 (x y : Z) : Z := w32 (x + y).
Definition rotr (n x : Z) : Z :=
  Z.lor (Z.shiftr x n) (w32 (Z.shiftl x (32 - n))).
Definition not32 (x : Z) : Z := Z.lxor x 0xFFFFFFFF.

Definition Ch (x y z : Z) : Z := Z.lxor (Z.land x y) (Z.land (not32 x) z).
Definition Maj (x y z : Z) : Z :=
  Z.lxor (Z.lxor (Z.land x y) (Z.land x z)) (Z.land y z).
Definition bsig0 (x : Z) : Z := Z.lxor (Z.lxor (rotr 2 x) (rotr 13 x)) (rotr 22 x).
Definition bsig1 (x : Z) : Z := Z.lxor (Z.lxor (rotr 6 x) (rotr 11 x)) (rotr 25 x).
Definition ssig0 (x : Z) : Z := Z.lxor (Z.lxor (rotr 7 x) (rotr 18 x)) (Z.shiftr x 3).
Definition ssig1 (x : Z) : Z := Z.lxor (Z.lxor (rotr 17 x) (rotr 19 x)) (Z.shiftr x 10).

(** The constants of FIPS 180-4: round constant [i] is the first 32 bits of
    the fractional part of the cube root of the [i]-th prime, and the
    initial chaining values are those of the square roots of the first
    eight primes. *)
Definition is_prime (n : Z) : bool :=
  forallb (fun d => negb (n mod d =? 0))
          (map Z.of_nat (seq 2 (Z.to_nat n - 2))).

Definition primes64 : list Z := filter is_prime (map Z.of_nat (seq 2 310)).

(** Integer cube root, one bit at a time from bit [bits - 1] down. *)
Fixpoint cbrt_bits (bits : nat) (n r : Z) : Z :=
  match bits with
  | O => r
  | S b =>
      let c := r + 2 ^ Z.of_nat b in
      cbrt_bits b n (if c * c * c <=? n then c else r)
  end.

Definition frac_cbrt32 (p : Z) : Z := w32 (cbrt_bits 40 (p * 2 ^ 96) 0).
Definition frac_sqrt32 (p : Z) : Z := w32 (Z.sqrt (p * 2 ^ 64)).

Definition K : list Z := Eval vm_compute in map frac_cbrt32 primes64.

(** The eight working variables / chaining values. *)
Record hstate : Type := HState
  { ha : Z; hb : Z; hc : Z; hd : Z; he : Z; hf : Z; hg : Z; hh : Z }.

Definition H0 : hstate :=
  Eval vm_compute in
    HState (frac_sqrt32 2) (frac_sqrt32 3) (frac_sqrt32 5) (frac_sqrt32 7)
           (frac_sqrt32 11) (frac_sqrt32 13) (frac_sqrt32 17) (frac_sqrt32 19).

(** One round with round constant [k] and schedule word [w]. *)
Definition round (s : hstate) (k w : Z) : hstate :=
  let t1 := add32 (add32 (add32 (add32 (hh s) (bsig1 (he s))) (Ch (he s) (hf s) (hg s))) k) w in
  let t2 := add32 (bsig0 (ha s)) (Maj (ha s) (hb s) (hc s)) in
  HState (add32 t1 t2) (ha s) (hb s) (hc s) (add32 (hd s) t1) (he s) (hf s) (hg s).

(** The message schedule is kept as a sliding window of the last sixteen
    words: the head is W[t], and W[t+16] is appended. *)
Definition next_w (win : list Z) : Z :=
  add32 (add32 (add32 (ssig1 (nth 14 win 0)) (nth 9 win 0)) (ssig0 (nth 1 win 0)))
        (nth 0 win 0).

Fixpoint rounds (ks : list Z) (win : list Z) (s : hstate) : hstate :=
  match ks with
  | [] => s
  | k :: ks' =>
      rounds ks' (tl win ++ [next_w win]) (round s k (nth 0 win 0))
  end.

Definition compress (s : hstate) (block : list Z) : hstate :=
  let r := rounds K block s in
  HState (add32 (ha s) (ha r)) (add32 (hb s) (hb r)) (add32 (hc s) (hc r))
         (add32 (hd s) (hd r)) (add32 (he s) (he r)) (add32 (hf s) (hf r))
         (add32 (hg s) (hg r)) (add32 (hh s) (hh r)).

(** Big-endian packing of bytes into 32-bit words. *)
Fixpoint words_of_bytes (bs : list Z) : list Z :=
  match bs with
  | b0 :: b1 :: b2 :: b3 :: rest =>
      (Z.lor (Z.shiftl b0 24) (Z.lor (Z.shiftl b1 16) (Z.lor (Z.shiftl b2 8) b3)))
        :: words_of_bytes rest
  | _ => []
  end.

Definition bytes_of_word (w : Z) : list Z :=
  [ Z.land (Z.shiftr w 24) 255; Z.land (Z.shiftr w 16) 255;
    Z.land (Z.shiftr w 8) 255; Z.land w 255 ].

(** Padding: 0x80, zeros up to 56 mod 64, then the bit length on 8 bytes. *)
Definition pad (bs : list Z) : list Z :=
  let len := Z.of_nat (List.length bs) in
  let zeros := Z.to_nat ((55 - len) mod 64) in
  let bits := 8 * len in
  bs ++ [0x80] ++ repeat 0 zeros
     ++ bytes_of_word (Z.shiftr bits 32) ++ bytes_of_word (w32 bits).

(** Absorb the padded message sixteen words at a time. *)
Fixpoint absorb (fuel : nat) (ws : list Z) (s : hstate) : hstate :=
  match fuel with
  | O => s
  | S fuel' =>
      match ws with
      | [] => s
      | _ => absorb fuel' (skipn 16 ws) (compress s (firstn 16 ws))
      end
  end.

Definition digest_bytes (s : hstate) : list Z :=
  bytes_of_word (ha s) ++ bytes_of_word (hb s) ++ bytes_of_word (hc s)
    ++ bytes_of_word (hd s) ++ bytes_of_word (he s) ++ bytes_of_word (hf s)
    ++ bytes_of_word (hg s) ++ bytes_of_word (hh s).

Definition sha256_state (bs : list Z) : hstate :=
  let ws := words_of_bytes (pad bs) in
  absorb (List.length ws) ws H0.

Definition sha256 (bs : list Z) : list Z := digest_bytes (sha256_state bs).

(** HMAC (RFC 2104) with block size 64. *)
Definition hmac_key (key : list Z) : list Z :=
  let k := if (64 <? Z.of_nat (List.length key)) then sha256 key else key in
  k ++ repeat 0 (64 - List.length k)%nat.

Definition hmac_sha256_state (key msg : list Z) : hstate :=
  let k := hmac_key key in
  let inner := sha256 (map (Z.lxor 0x36) k ++ msg) in
  sha256_state (map (Z.lxor 0x5c) k ++ inner).

(** Strings as bytes, and the hexadecimal rendering of the digest. *)
Fixpoint bytes_of_string (s : string) : list Z :=
  match s with
  | EmptyString => []
  | String c s' => Z.of_N (N_of_ascii c) :: bytes_of_string s'
  end.

Definition hex_digit (d : Z) : ascii :=
  nth (Z.to_nat d)
      [ "0"; "1"; "2"; "3"; "4"; "5"; "6"; "7";
        "8"; "9"; "a"; "b"; "c"; "d"; "e"; "f" ]%char "0"%char.

Definition hex_byte (b : Z) (rest : string) : string :=
  String (hex_digit (Z.shiftr b 4)) (String (hex_digit (Z.land b 15)) rest).

Definition hex (bs : list Z) : string := fold_right hex_byte EmptyString bs.

Definition sha256_hex (msg : string) : string :=
  hex (sha256 (bytes_of_string msg)).

Definition hmac_sha256_hex (key msg : string) : string :=
  hex (digest_bytes (hmac_sha256_state (bytes_of_string key) (bytes_of_string msg))).

End Crypto.

(* ===================================================================== *)
(** ** JavaScript values the service handles *)

(** A value thrown by a method: [new Error(message)], or the [TypeError]
    the engine raises on a property read of [undefined] or a call of a
    non-function (messages as V8 words them). *)
Inductive JSError : Type :=
| Error (message : string)
| TypeError (message : string).

(** How a method call completes: it returns, or it throws (for an [async]
    method: the promise is fulfilled, or it is rejected). *)
Inductive Completion (A : Type) : Type :=
| Return (value : A)
| Throw (e : JSError).
Arguments Return {A} value.
Arguments Throw {A} e.

(** A property that may be [undefined] is an [option]; a string is falsy
    when it is [undefined] or empty. *)
Definition js_truthy (v : option string) : option string :=
  match v with
  | Some EmptyString => None
  | Some s => Some s
  | None => None
  end.

(** [v || dflt] on strings. *)
Definition js_or (v : option string) (dflt : string) : string :=
  match js_truthy v with
  | Some s => s
  | None => dflt
  end.

(** Decimal rendering of an integer, as a template literal prints it. *)
Definition string_of_Z (z : Z) : string := NilZero.string_of_int (Z.to_int z).

(** [`${v}`] for a property that may be [undefined]. *)
Definition template_str (v : option string) : string :=
  match v with
  | Some s => s
  | None => "undefined"
  end.

(** Amounts.  Every amount the service stores is [plan.price * 100]: an
    integer when the price is one, [NaN] when the price is [undefined]. *)
Inductive JSNum : Type :=
| Num (z : Z)
| NaN.

(** [price * 100]. *)
Definition js_times100 (price : option Z) : JSNum :=
  match price with
  | Some z => Num (z * 100)
  | None => NaN
  end.

(** The Number [amount / 100].  For an integer amount it is the double
    nearest to the rational [z/100], which that rational determines (and
    equals whenever [z] is a multiple of 100, as every amount built from the
    plan table is); it is kept as the rational. *)
Inductive JSQuot : Type :=
| Quot (q : Q)
| QuotNaN.

Definition js_div100 (a : JSNum) : JSQuot :=
  match a with
  | Num z => Quot (z # 100)
  | NaN => QuotNaN
  end.

(* ===================================================================== *)
(** ** [Map]: keyed store that iterates in insertion order

    [set] on a key already present replaces the value and keeps the key's
    place; on a new key it appends.  [values()] iterates in that order. *)

Section JSMap.
Context {V : Type}.

Definition JSMap : Type := list (string * V).

Fixpoint map_get (k : string) (m : JSMap) : option V :=
  match m with
  | [] => None
  | (k', v) :: m' => if String.eqb k' k then Some v else map_get k m'
  end.

Fixpoint map_set (k : string) (v : V) (m : JSMap) : JSMap :=
  match m with
  | [] => [(k, v)]
  | (k', v') :: m' =>
      if String.eqb k' k then (k, v) :: m' else (k', v') :: map_set k v m'
  end.

Definition map_keys (m : JSMap) : list string := map fst m.
Definition map_values (m : JSMap) : list V := map snd m.

(** The invariant of a [Map]: no key occurs twice. *)
Definition map_ok (m : JSMap) : Prop := NoDup (map_keys m).
End JSMap.
Arguments JSMap V : clear implicits.

(** [Array.prototype.sort(compare)]: the sort is stable (ECMAScript 2019),
    so for a consistent comparator its result is the one of a stable
    insertion sort: [x] goes before the first element it does not sort
    after. *)
Section Sort.
Context {A : Type} (compare : A -> A -> Z).

Fixpoint sort_insert (x : A) (l : list A) : list A :=
  match l with
  | [] => [x]
  | y :: l' =>
      if compare x y <=? 0 then x :: y :: l' else y :: sort_insert x l'
  end.

Definition array_sort (l : list A) : list A := fold_right sort_insert [] l.
End Sort.

(* ===================================================================== *)
(** ** Data model *)

(** An entry of [this.plans]. *)
Module Plan.
Record t : Type := mk { questions : Z; price : Z; name : string }.
End Plan.

(** [this.plans] (constructor, lines 19-24). *)
Definition plans : list (string * Plan.t) :=
  [ ("basic",    Plan.mk 5 199 "Basic Plan");
    ("standard", Plan.mk 10 299 "Standard Plan");
    ("premium",  Plan.mk 20 399 "Premium Plan");
    ("report",   Plan.mk 0 999 "Full Report") ].

(** [this.plans] is an object literal, so [this.plans[planType]] also finds
    what it inherits from [Object.prototype]: a function (or, for
    [__proto__], the prototype object), truthy, with no [price] and no
    [questions]. *)
Definition object_prototype_keys : list string :=
  [ "constructor"; "hasOwnProperty"; "isPrototypeOf"; "propertyIsEnumerable";
    "toLocaleString"; "toString"; "valueOf"; "__proto__";
    "__defineGetter__"; "__defineSetter__"; "__lookupGetter__"; "__lookupSetter__" ].

Inductive PlanValue : Type :=
| OwnPlan (p : Plan.t)
| Inherited (key : string).

(** [this.plans[planType]]; [None] is [undefined]. *)
Definition plans_get (planType : string) : option PlanValue :=
  match map_get planType plans with
  | Some p => Some (OwnPlan p)
  | None =>
      if existsb (String.eqb planType) object_prototype_keys
      then Some (Inherited planType)
      else None
  end.

(** [plan.price], [plan.questions], [plan.name]. *)
Definition plan_price (plan : PlanValue) : option Z :=
  match plan with
  | OwnPlan p => Some (Plan.price p)
  | Inherited _ => None
  end.

Definition plan_questions (plan : PlanValue) : option Z :=
  match plan with
  | OwnPlan p => Some (Plan.questions p)
  | Inherited _ => None
  end.

Definition plan_name (plan : PlanValue) : option string :=
  match plan with
  | OwnPlan p => Some (Plan.name p)
  | Inherited key =>
      if String.eqb key "__proto__" then None
      else if String.eqb key "constructor" then Some "Object"
      else Some key
  end.

(** [userDetails]: each property may be missing. *)
Module UserDetails.
Record t : Type := mk
  { name : option string; mobile : option string; email : option string }.
End UserDetails.

(** [errorData] of a failure callback; only [description] is read. *)
Module ErrorData.
Record t : Type := mk { code : option string; description : option string }.
End ErrorData.

Inductive OrderStatus : Type := created | paid | failed.

Module Notes.
Record t : Type := mk
  { userId : string; planType : string; userName : string; userMobile : string }.
End Notes.

(** A stored order: [orderData] spread with [userId], [planType],
    [userDetails], [plan] (lines 38-52, 72-78), and the properties the
    transitions add: [paymentId], [error], [failedAt].  [createdAt] and the
    other instants taken with [new Date().toISOString()] are kept as the
    milliseconds since the epoch that string denotes ([new Date(str)] reads
    the same milliseconds back). *)
Module Order.
Record t : Type := mk
  { id : string;
    entity : string;
    amount : JSNum;
    currency : string;
    status : OrderStatus;
    attempts : Z;
    created_at : Z;
    notes : Notes.t;
    userId : string;
    planType : string;
    userDetails : UserDetails.t;
    plan : PlanValue;
    paymentId : option string;
    error : option ErrorData.t;
    failedAt : option Z }.

(** [order.status = 'paid'; order.paymentId = pid] (lines 162-163). *)
Definition mark_paid (pid : string) (o : t) : t :=
  mk (id o) (entity o) (amount o) (currency o) paid (attempts o)
     (created_at o) (notes o) (userId o) (planType o) (userDetails o)
     (plan o) (Some pid) (error o) (failedAt o).

(** [order.status = 'failed'; order.error = errorData;
     order.failedAt = now] (lines 190-192). *)
Definition mark_failed (errorData : option ErrorData.t) (now : Z) (o : t) : t :=
  mk (id o) (entity o) (amount o) (currency o) failed (attempts o)
     (created_at o) (notes o) (userId o) (planType o) (userDetails o)
     (plan o) (paymentId o) errorData (Some now).
End Order.

(** A stored payment ([paymentRecord], lines 145-157); [createdAt] and
    [verifiedAt] are instants in milliseconds, as in [Order]. *)
Module Payment.
Record t : Type := mk
  { id : string;
    orderId : string;
    amount : JSNum;
    currency : string;
    status : string;
    method : string;
    userId : string;
    planType : string;
    plan : PlanValue;
    createdAt : Z;
    verifiedAt : Z }.
End Payment.

(** [this.razorpayConfig]: the secrets come from the process environment
    and are taken to be set. *)
Module Config.
Record t : Type := mk
  { keyId : string; keySecret : string; webhookSecret : string; baseUrl : string }.
End Config.

(** The state of the service: its two [Map]s. *)
Record Store : Type := mkStore
  { orders : JSMap Order.t;
    payments : JSMap Payment.t }.

Definition empty_store : Store := mkStore [] [].

(* ===================================================================== *)
(** ** createOrder (lines 28-117) *)

Module Prefill.
Record t : Type := mk { name : string; contact : string; email : string }.
End Prefill.

(** The [order] object of the response (lines 89-110); its [modal.ondismiss]
    callback only logs and is left out. *)
Module Checkout.
Record t : Type := mk
  { id : string;
    amount : JSNum;
    currency : string;
    key : string;
    name : string;
    description : string;
    image : string;
    prefill : Prefill.t;
    theme_color : string }.
End Checkout.

Module CreateResponse.
Record t : Type := mk { success : bool; order : Checkout.t }.
End CreateResponse.

(** [`order_${Date.now()}_${Math.random().toString(36).substr(2, 9)}`]:
    [now] is the clock reading and [random36] the (up to nine) base-36
    digits drawn from [Math.random()]. *)
Definition make_order_id (now : Z) (random36 : string) : string :=
  "order_" +:+ string_of_Z now +:+ "_" +:+ random36.

(** The environment supplies [now_id] and [random36] for the id and
    [now_created] for [created_at]; [userDetails = None] is a call with
    [undefined], on which [userDetails.name] throws. *)
Definition createOrder (cfg : Config.t)
    (now_id : Z) (random36 : string) (now_created : Z)
    (userId planType : string) (userDetails : option UserDetails.t)
    (s : Store) : Store * Completion CreateResponse.t :=
  let rethrow msg := Throw (Error ("Failed to create payment order: " +:+ msg)) in
  match plans_get planType with
  | None => (s, rethrow "Invalid plan type")
  | Some plan =>
      let orderId := make_order_id now_id random36 in
      match userDetails with
      | None =>
          (s, rethrow "Cannot read properties of undefined (reading 'name')")
      | Some ud =>
          let stored :=
            Order.mk orderId "order" (js_times100 (plan_price plan)) "INR"
              created 0 (now_created / 1000)
              (Notes.mk userId planType
                 (js_or (UserDetails.name ud) "User")
                 (js_or (UserDetails.mobile ud) ""))
              userId planType ud plan None None None in
          (mkStore (map_set orderId stored (orders s)) (payments s),
           Return
             (CreateResponse.mk true
                (Checkout.mk orderId (js_times100 (plan_price plan)) "INR"
                   (Config.keyId cfg) "ChatAstro"
                   (template_str (plan_name plan) +:+ " - "
                      +:+ template_str (option_map string_of_Z (plan_questions plan))
                      +:+ " Questions")
                   "https://via.placeholder.com/200x200/4a148c/ffffff?text=✨"
                   (Prefill.mk (js_or (UserDetails.name ud) "")
                      (js_or (UserDetails.mobile ud) "")
                      (js_or (UserDetails.email ud) ""))
                   "#4a148c")))
      end
  end.

(* ===================================================================== *)
(** ** verifyPayment (lines 120-183) *)

(** [paymentData]: the three properties the method reads, and whatever else
    the client put in the object ([other], never read). *)
Module PaymentData.
Record t : Type := mk
  { razorpay_order_id : option string;
    razorpay_payment_id : option string;
    razorpay_signature : option string;
    other : list (string * string) }.
End PaymentData.

Module VerifyResponse.
Record t : Type := mk
  { success : bool; payment : Payment.t; order : Order.t }.
End VerifyResponse.

(** The message the confirmation signature is computed over. *)
Definition confirmation_message (orderId paymentId : string) : string :=
  orderId +:+ "|" +:+ paymentId.

(** [paymentRecord] (lines 145-157). *)
Definition payment_record (paymentId orderId : string) (order : Order.t)
    (now_created now_verified : Z) : Payment.t :=
  Payment.mk paymentId orderId (Order.amount order) (Order.currency order)
    "captured" "card" (Order.userId order) (Order.planType order)
    (Order.plan order) now_created now_verified.

(** [now_created] and [now_verified] are the two clock readings of
    [new Date()] at lines 155 and 156.  The response holds the stored order
    object itself; it is given as that object's value at the return. *)
Definition verifyPayment (cfg : Config.t) (now_created now_verified : Z)
    (paymentData : PaymentData.t) (s : Store)
    : Store * Completion VerifyResponse.t :=
  let rethrow msg := Throw (Error ("Payment verification failed: " +:+ msg)) in
  match js_truthy (PaymentData.razorpay_order_id paymentData),
        js_truthy (PaymentData.razorpay_payment_id paymentData),
        js_truthy (PaymentData.razorpay_signature paymentData) with
  | Some razorpay_order_id, Some razorpay_payment_id, Some razorpay_signature =>
      match map_get razorpay_order_id (orders s) with
      | None => (s, rethrow "Order not found")
      | Some order =>
          let generated_signature :=
            Crypto.hmac_sha256_hex (Config.keySecret cfg)
              (confirmation_message razorpay_order_id razorpay_payment_id) in
          if negb (String.eqb generated_signature razorpay_signature)
          then (s, rethrow "Invalid payment signature")
          else
            let paymentRecord :=
              payment_record razorpay_payment_id razorpay_order_id order
                now_created now_verified in
            let order' := Order.mark_paid razorpay_payment_id order in
            (mkStore (map_set razorpay_order_id order' (orders s))
                     (map_set razorpay_payment_id paymentRecord (payments s)),
             Return (VerifyResponse.mk true paymentRecord order'))
      end
  | _, _, _ => (s, rethrow "Missing payment verification data")
  end.

(* ===================================================================== *)
(** ** handlePaymentFailure (lines 186-212) *)

Module FailureResponse.
Record t : Type := mk
  { success : bool; message : string; error : ErrorData.t }.
End FailureResponse.

(** [now] is the reading of [new Date()] at line 192.  With [errorData]
    undefined ([None]) the order is updated first and the read of
    [errorData.description] at line 198 then throws; the [catch] rethrows
    the error as it is. *)
Definition handlePaymentFailure (now : Z) (orderId : string)
    (errorData : option ErrorData.t) (s : Store)
    : Store * Completion FailureResponse.t :=
  let s' :=
    match map_get orderId (orders s) with
    | Some order =>
        mkStore (map_set orderId (Order.mark_failed errorData now order) (orders s))
                (payments s)
    | None => s
    end in
  match errorData with
  | None =>
      (s', Throw (TypeError "Cannot read properties of undefined (reading 'description')"))
  | Some e =>
      (s', Return (FailureResponse.mk false "Payment failed. Please try again." e))
  end.

(* ===================================================================== *)
(** ** getPaymentStatus (lines 215-235) *)

Module OrderSnapshot.
Record t : Type := mk
  { id : string; amount : JSNum; status : OrderStatus; createdAt : Z }.
End OrderSnapshot.

Module PaymentSnapshot.
Record t : Type := mk
  { id : string; status : string; method : string; verifiedAt : Z }.
End PaymentSnapshot.

Module StatusSnapshot.
Record t : Type := mk
  { order : OrderSnapshot.t; payment : option PaymentSnapshot.t }.
End StatusSnapshot.

(** [None] is the [null] returned for an unknown order; a [payment] of
    [None] is the [null] of line 233. *)
Definition getPaymentStatus (orderId : string) (s : Store)
    : option StatusSnapshot.t :=
  match map_get orderId (orders s) with
  | None => None
  | Some order =>
      let payment :=
        match js_truthy (Order.paymentId order) with
        | Some pid => map_get pid (payments s)
        | None => None
        end in
      Some (StatusSnapshot.mk
              (OrderSnapshot.mk (Order.id order) (Order.amount order)
                 (Order.status order) (Order.created_at order))
              (option_map
                 (fun p => PaymentSnapshot.mk (Payment.id p) (Payment.status p)
                             (Payment.method p) (Payment.verifiedAt p))
                 payment))
  end.

(* ===================================================================== *)
(** ** getUserPayments (lines 238-257) *)

Module HistoryEntry.
Record t : Type := mk
  { id : string;
    orderId : string;
    amount : JSQuot;
    planType : string;
    planName : option string;
    questions : option Z;
    status : string;
    createdAt : Z }.
End HistoryEntry.

(** The object pushed for one payment (lines 243-252). *)
Definition history_entry (payment : Payment.t) : HistoryEntry.t :=
  HistoryEntry.mk (Payment.id payment) (Payment.orderId payment)
    (js_div100 (Payment.amount payment)) (Payment.planType payment)
    (plan_name (Payment.plan payment)) (plan_questions (Payment.plan payment))
    (Payment.status payment) (Payment.createdAt payment).

(** [(a, b) => new Date(b.createdAt) - new Date(a.createdAt)]. *)
Definition by_created_desc (a b : HistoryEntry.t) : Z :=
  HistoryEntry.createdAt b - HistoryEntry.createdAt a.

(** The loop over [this.payments.values()] (lines 241-254). *)
Definition user_payments (userId : string) (s : Store) : list Payment.t :=
  filter (fun payment => String.eqb (Payment.userId payment) userId)
         (map_values (payments s)).

Definition getUserPayments (userId : string) (s : Store) : list HistoryEntry.t :=
  array_sort by_created_desc (map history_entry (user_payments userId s)).

(* ===================================================================== *)
(** ** validateWebhook (lines 260-272) *)

Definition validateWebhook (cfg : Config.t) (body signature : string) : bool :=
  String.eqb (Crypto.hmac_sha256_hex (Config.webhookSecret cfg) body) signature.

(* ===================================================================== *)
(** ** processWebhook (lines 275-299) *)

(** A gateway entity as a webhook carries it; the service passes it on
    without reading it. *)
Module Entity.
Record t : Type := mk
  { id : string; order_id : option string; status : string }.
End Entity.

(** [payload.payment], [payload.order]: an object with an [entity]. *)
Module Wrapped.
Record t : Type := mk { entity : option Entity.t }.
End Wrapped.

Module Payload.
Record t : Type := mk { payment : option Wrapped.t; order : option Wrapped.t }.
End Payload.

Module EventData.
Record t : Type := mk { event : string; payload : option Payload.t }.
End EventData.

Module WebhookResponse.
Record t : Type := mk { success : bool }.
End WebhookResponse.

(** The methods class [PaymentService] declares (lines 6-312). *)
Definition PaymentService_methods : list string :=
  [ "constructor"; "createOrder"; "verifyPayment"; "handlePaymentFailure";
    "getPaymentStatus"; "getUserPayments"; "validateWebhook"; "processWebhook";
    "getPlanDetails"; "getAllPlans" ].

(** [this.name(arg)] where [name] is not a method of the class (nor a
    property of the instance or of [Object.prototype]): the callee is
    [undefined] and the call throws. *)
Definition not_a_function (name : string) : JSError :=
  TypeError ("this." +:+ name +:+ " is not a function").

(** [payload.payment.entity] / [payload.order.entity], evaluated as the
    argument before the call is attempted. *)
Definition payload_entity (field : string)
    (select : Payload.t -> option Wrapped.t) (payload : option Payload.t)
    : Completion (option Entity.t) :=
  match payload with
  | None =>
      Throw (TypeError ("Cannot read properties of undefined (reading '"
                          +:+ field +:+ "')"))
  | Some p =>
      match select p with
      | None => Throw (TypeError "Cannot read properties of undefined (reading 'entity')")
      | Some w => Return (Wrapped.entity w)
      end
  end.

(** The three handlers the [switch] calls, [handlePaymentCaptured],
    [handlePaymentFailed] and [handleOrderPaid], are not among the
    methods of the class: each call throws, and the [catch] rethrows. *)
Definition call_handler (name : string) (arg : Completion (option Entity.t))
    (s : Store) : Store * Completion WebhookResponse.t :=
  match arg with
  | Throw e => (s, Throw e)
  | Return _ => (s, Throw (not_a_function name))
  end.

Definition processWebhook (eventData : EventData.t) (s : Store)
    : Store * Completion WebhookResponse.t :=
  let payload := EventData.payload eventData in
  if String.eqb (EventData.event eventData) "payment.captured" then
    call_handler "handlePaymentCaptured"
      (payload_entity "payment" Payload.payment payload) s
  else if String.eqb (EventData.event eventData) "payment.failed" then
    call_handler "handlePaymentFailed"
      (payload_entity "payment" Payload.payment payload) s
  else if String.eqb (EventData.event eventData) "order.paid" then
    call_handler "handleOrderPaid"
      (payload_entity "order" Payload.order payload) s
  else
    (s, Return (WebhookResponse.mk true)).

(* ===================================================================== *)
(** ** getPlanDetails, getAllPlans (lines 302-312) *)

(** [this.plans[planType] || null]: whatever the lookup finds is truthy, so
    [None] is the [null] of an unknown key. *)
Definition getPlanDetails (planType : string) : option PlanValue :=
  plans_get planType.

(** [{ id: key, ...plan }]. *)
Module PlanListing.
Record t : Type := mk
  { id : string; questions : Z; price : Z; name : string }.
End PlanListing.

(** [Object.entries(this.plans)] lists the own properties in the order the
    literal wrote them. *)
Definition getAllPlans : list PlanListing.t :=
  map (fun entry =>
         PlanListing.mk (fst entry) (Plan.questions (snd entry))
           (Plan.price (snd entry)) (Plan.name (snd entry)))
      plans.

(* ===================================================================== *)
(** ** Runs of the service *)

(** One state-changing call, with the readings it takes from its
    environment. *)
Inductive Call : Type :=
| CallCreateOrder (now_id : Z) (random36 : string) (now_created : Z)
    (userId planType : string) (userDetails : option UserDetails.t)
| CallVerifyPayment (now_created now_verified : Z) (paymentData : PaymentData.t)
| CallHandlePaymentFailure (now : Z) (orderId : string)
    (errorData : option ErrorData.t)
| CallProcessWebhook (eventData : EventData.t).

(** The store a call leaves behind, whether it returns or throws. *)
Definition exec (cfg : Config.t) (c : Call) (s : Store) : Store :=
  match c with
  | CallCreateOrder now_id random36 now_created userId planType userDetails =>
      fst (createOrder cfg now_id random36 now_created userId planType userDetails s)
  | CallVerifyPayment now_created now_verified paymentData =>
      fst (verifyPayment cfg now_created now_verified paymentData s)
  | CallHandlePaymentFailure now orderId errorData =>
      fst (handlePaymentFailure now orderId errorData s)
  | CallProcessWebhook eventData =>
      fst (processWebhook eventData s)
  end.

(** The stores the service can be in: the empty one of the constructor,
    and what calls make of it. *)
Inductive reachable (cfg : Config.t) : Store -> Prop :=
| reachable_init : reachable cfg empty_store
| reachable_step c s : reachable cfg s -> reachable cfg (exec cfg c s).

(* ===================================================================== *)
(** ** Vocabulary of the properties *)

(** A confirmation is validly signed when its signature is the digest of
    [orderId|paymentId] under the client-confirmation secret. *)
Definition valid_signature (cfg : Config.t) (orderId paymentId sg : string) : Prop :=
  sg = Crypto.hmac_sha256_hex (Config.keySecret cfg)
         (confirmation_message orderId paymentId).

(** Two payment records that differ at most in the two instants read from
    the clock. *)
Definition same_but_timestamps (p q : Payment.t) : Prop :=
  Payment.id p = Payment.id q /\
  Payment.orderId p = Payment.orderId q /\
  Payment.amount p = Payment.amount q /\
  Payment.currency p = Payment.currency q /\
  Payment.status p = Payment.status q /\
  Payment.method p = Payment.method q /\
  Payment.userId p = Payment.userId q /\
  Payment.planType p = Payment.planType q /\
  Payment.plan p = Payment.plan q.

(** An order differs from another at most in what a failure records. *)
Definition same_but_failure (o o' : Order.t) : Prop :=
  Order.id o' = Order.id o /\
  Order.entity o' = Order.entity o /\
  Order.amount o' = Order.amount o /\
  Order.currency o' = Order.currency o /\
  Order.attempts o' = Order.attempts o /\
  Order.created_at o' = Order.created_at o /\
  Order.notes o' = Order.notes o /\
  Order.userId o' = Order.userId o /\
  Order.planType o' = Order.planType o /\
  Order.userDetails o' = Order.userDetails o /\
  Order.plan o' = Order.plan o /\
  Order.paymentId o' = Order.paymentId o.

(** No payment key occurs twice; a payment is stored under its own id; a
    payment id recorded on an order is non-empty; and a payment that an
    order points to and that points back to the order has the order's
    amount. *)
Definition store_inv (s : Store) : Prop :=
  map_ok (payments s) /\
  (forall k p, map_get k (payments s) = Some p -> Payment.id p = k) /\
  (forall k o pid,
     map_get k (orders s) = Some o -> Order.paymentId o = Some pid -> pid <> "") /\
  (forall k o pid p,
     map_get k (orders s) = Some o -> Order.paymentId o = Some pid ->
     map_get pid (payments s) = Some p -> Payment.orderId p = k ->
     Payment.amount p = Order.amount o).

(** What the records of a store look like: an order is stored under its
    own id, is an [order] entity in INR, carries the plan its plan type
    names and 100 times that plan's price; a [created] order has no payment
    id and no failure detail, a [paid] one has a payment id; a payment id
    on an order is the key of a stored payment.  A payment is stored under
    its own id, is [captured], by [card], in INR, and names a stored
    order. *)
Definition order_ok (s : Store) (k : string) (o : Order.t) : Prop :=
  Order.id o = k /\
  Order.entity o = "order" /\
  Order.currency o = "INR" /\
  plans_get (Order.planType o) = Some (Order.plan o) /\
  Order.amount o = js_times100 (plan_price (Order.plan o)) /\
  (Order.status o = created ->
   Order.paymentId o = None /\ Order.error o = None /\ Order.failedAt o = None) /\
  (Order.status o = paid -> exists pid, Order.paymentId o = Some pid) /\
  (forall pid, Order.paymentId o = Some pid ->
     exists p, map_get pid (payments s) = Some p).

Definition payment_ok (s : Store) (k : string) (p : Payment.t) : Prop :=
  Payment.id p = k /\
  Payment.status p = "captured" /\
  Payment.method p = "card" /\
  Payment.currency p = "INR" /\
  exists o, map_get (Payment.orderId p) (orders s) = Some o.

Definition records_ok (s : Store) : Prop :=
  map_ok (orders s) /\
  map_ok (payments s) /\
  (forall k o, map_get k (orders s) = Some o -> order_ok s k o) /\
  (forall k p, map_get k (payments s) = Some p -> payment_ok s k p).

(** The characters of a lowercase hexadecimal rendering. *)
Definition is_lower_hex (c : ascii) : bool :=
  existsb (Ascii.eqb c)
    [ "0"; "1"; "2"; "3"; "4"; "5"; "6"; "7";
      "8"; "9"; "a"; "b"; "c"; "d"; "e"; "f" ]%char.

Fixpoint string_forallb (f : ascii -> bool) (s : string) : bool :=
  match s with
  | EmptyString => true
  | String c s' => f c && string_forallb f s'
  end.

(** Whether a text holds an underscore (the separator of an order id). *)
Fixpoint has_underscore (s : string) : bool :=
  match s with
  | EmptyString => false
  | String c s' => Ascii.eqb c "_" || has_underscore s'
  end.

(** A signature of the shape a digest has: 64 lowercase hexadecimal
    characters. *)
Definition digest_shaped (sg : string) : Prop :=
  String.length sg = 64%nat /\ string_forallb is_lower_hex sg = true.

(** A history entry [e] lists the payment [p]: it repeats the payment's
    id, order id, plan type, status and creation time, gives the name and
    the questions of the payment's plan, and gives the payment's amount
    divided by 100. *)
Definition listed_as (p : Payment.t) (e : HistoryEntry.t) : Prop :=
  HistoryEntry.id e = Payment.id p /\
  HistoryEntry.orderId e = Payment.orderId p /\
  HistoryEntry.amount e
  = match Payment.amount p with
    | Num z => Quot (z # 100)
    | NaN => QuotNaN
    end /\
  HistoryEntry.planType e = Payment.planType p /\
  match Payment.plan p with
  | OwnPlan plan =>
      HistoryEntry.planName e = Some (Plan.name plan) /\
      HistoryEntry.questions e = Some (Plan.questions plan)
  | Inherited _ => HistoryEntry.questions e = None
  end /\
  HistoryEntry.status e = Payment.status p /\
  HistoryEntry.createdAt e = Payment.createdAt p.

(** The store after a sequence of calls. *)
Definition run (cfg : Config.t) (calls : list Call) (s : Store) : Store :=
  fold_left (fun st c => exec cfg c st) calls s.

(** The call is a [createOrder] whose readings generate the order id [k]. *)
Definition generates_order_id (k : string) (c : Call) : Prop :=
  match c with
  | CallCreateOrder now_id random36 _ _ _ _ => make_order_id now_id random36 = k
  | _ => False
  end.

(** The two views of the amount of the payment [pid], stored for order
    [k] and owned by [userId]: the status snapshot of the order shows the
    figure [a]; the user's history has exactly one entry for [pid], and
    its figure is [a] divided by 100. *)
Definition amount_in_both_views (s : Store) (k pid userId : string) (a : JSNum)
    : Prop :=
  exists snap e,
    getPaymentStatus k s = Some snap /\
    OrderSnapshot.amount (StatusSnapshot.order snap) = a /\
    In e (getUserPayments userId s) /\
    HistoryEntry.id e = pid /\
    (forall e', In e' (getUserPayments userId s) ->
                HistoryEntry.id e' = pid -> e' = e) /\
    HistoryEntry.amount e
    = match a with
      | Num z => Quot (z # 100)
      | NaN => QuotNaN
      end /\
    (forall z, a = Num z ->
       exists q, HistoryEntry.amount e = Quot q /\ (q * 100 == inject_Z z)%Q).

(* ===================================================================== *)
(** ** A run used to exercise the model

    Plan [standard] bought by user [u1]: the scenario of the specification,
    with fixed clock readings and a fixed test secret. *)

Module Scenario.
Definition cfg : Config.t :=
  Config.mk "rzp_test_key" "test_secret" "whsec_test" "https://api.razorpay.com/v1".

Definition details : UserDetails.t :=
  UserDetails.mk (Some "Asha") (Some "9999999999") None.

Definition order_id : string := "order_1700000000000_abc123xyz".
Definition payment_id : string := "pay_1".

(** HMAC-SHA256 of [order_1700000000000_abc123xyz|pay_1] under
    [test_secret]. *)
Definition signature : string :=
  "945db24b4915c8dd5f9507ad223c87bbf0423b0f55839271afd1b2de4195aebd".

(** The confirmation, with an [amount] the client made up. *)
Definition confirmation : PaymentData.t :=
  PaymentData.mk (Some order_id) (Some payment_id) (Some signature)
    [("amount", "1")].

(** The store after [createOrder], after the first confirmation (clock at
    1000 ms past the creation) and after a failure callback. *)
Definition after_create : Store :=
  fst (createOrder cfg 1700000000000 "abc123xyz" 1700000000000
         "u1" "standard" (Some details) empty_store).

Definition after_verify : Store :=
  fst (verifyPayment cfg 1700000001000 1700000001000 confirmation after_create).

Definition failure : ErrorData.t :=
  ErrorData.mk (Some "BAD_REQUEST_ERROR") (Some "Payment declined").

Definition after_failure : Store :=
  fst (handlePaymentFailure 1700000002000 order_id (Some failure) after_create).

Definition captured_entity : Entity.t :=
  Entity.mk payment_id (Some order_id) "captured".

Definition order_entity : Entity.t :=
  Entity.mk order_id None "paid".

Definition webhook (event : string) : EventData.t :=
  EventData.mk event
    (Some (Payload.mk (Some (Wrapped.mk (Some captured_entity)))
                      (Some (Wrapped.mk (Some order_entity))))).

(** A store holding three payments of user [u1], made at instants 1000,
    2000 and 3000, and one of another user; the [Map] received them in the
    order [pay_b], [pay_x], [pay_c], [pay_a]. *)
Definition pay (id userId : string) (at_ms : Z) : Payment.t :=
  Payment.mk id order_id (Num 29900) "INR" "captured" "card" userId "standard"
    (OwnPlan (Plan.mk 10 299 "Standard Plan")) at_ms at_ms.

Definition history_store : Store :=
  mkStore []
    (map_set "pay_a" (pay "pay_a" "u1" 1000)
       (map_set "pay_c" (pay "pay_c" "u1" 3000)
          (map_set "pay_x" (pay "pay_x" "u2" 1500)
             (map_set "pay_b" (pay "pay_b" "u1" 2000) [])))).
End Scenario.

(** Further runs: a second payment id for the order of the scenario, a
    second order, and the readings of a second [createOrder]. *)
Module Runs.
Definition second_payment_id : string := "pay_2".

(** The confirmation of [pay_2] for the order of the scenario, signed as
    the gateway would. *)
Definition second_confirmation : PaymentData.t :=
  PaymentData.mk (Some Scenario.order_id) (Some second_payment_id)
    (Some (Crypto.hmac_sha256_hex (Config.keySecret Scenario.cfg)
             (confirmation_message Scenario.order_id second_payment_id)))
    [].

(** A second order, for plan [basic] and user [u2], one second later. *)
Definition other_order_id : string := make_order_id 1700000001000 "zzz999aaa".

Definition two_orders : Store :=
  fst (createOrder Scenario.cfg 1700000001000 "zzz999aaa" 1700000001000
         "u2" "basic" (Some (UserDetails.mk None None None))
         Scenario.after_create).

(** [pay_1] confirmed for the second order. *)
Definition reused_confirmation : PaymentData.t :=
  PaymentData.mk (Some other_order_id) (Some Scenario.payment_id)
    (Some (Crypto.hmac_sha256_hex (Config.keySecret Scenario.cfg)
             (confirmation_message other_order_id Scenario.payment_id)))
    [].

(** The order of the scenario, paid and then reported failed: it keeps its
    payment id. *)
Definition paid_then_failed : Store :=
  fst (handlePaymentFailure 1700000003000 Scenario.order_id
         (Some Scenario.failure) Scenario.after_verify).

(** The order id of the scenario generated a second time, for plan [basic]
    and user [u9], after the first order was paid. *)
Definition id_generated_again : Store :=
  fst (createOrder Scenario.cfg 1700000000000 "abc123xyz" 1700000007000
         "u9" "basic" (Some Scenario.details) Scenario.after_verify).

(** Three payments of user [u1] and one of [u2]; [pay_b] and [pay_c] were
    made at the same instant, and the [Map] received the four in the order
    [pay_b], [pay_x], [pay_c], [pay_a]. *)
Definition tie_store : Store :=
  mkStore []
    (map_set "pay_a" (Scenario.pay "pay_a" "u1" 1000)
       (map_set "pay_c" (Scenario.pay "pay_c" "u1" 2000)
          (map_set "pay_x" (Scenario.pay "pay_x" "u2" 2000)
             (map_set "pay_b" (Scenario.pay "pay_b" "u1" 2000) [])))).
End Runs.

(* ===================================================================== *)
(** * Properties *)

(** ** The keyed digest *)

Example sha256_abc :
  Crypto.sha256_hex "abc"
  = "ba7816bf8f01cfea414140de5dae2223b00361a396177a9cb410ff61f20015ad".
Proof. vm_compute. reflexivity. Qed.

Example sha256_empty :
  Crypto.sha256_hex ""
  = "e3b0c44298fc1c149afbf4c8996fb92427ae41e4649b934ca495991b7852b855".
Proof. vm_compute. reflexivity. Qed.

Example hmac_sha256_fox :
  Crypto.hmac_sha256_hex "key" "The quick brown fox jumps over the lazy dog"
  = "f7bc83f430538424b13298e6aa6fb143ef4d59a14946175997479dbc2d1a3cd8".
Proof. vm_compute. reflexivity. Qed.

(** A hexadecimal digest is never the empty string: it is truthy. *)
Lemma hmac_sha256_hex_nonempty key msg :
  Crypto.hmac_sha256_hex key msg <> "".
Proof.
  unfold Crypto.hmac_sha256_hex, Crypto.digest_bytes.
  generalize (Crypto.hmac_sha256_state (Crypto.bytes_of_string key)
                (Crypto.bytes_of_string msg)).
  intros st.
  cbv beta iota delta [Crypto.hex Crypto.bytes_of_word Crypto.hex_byte app fold_right].
  intros H. inversion H.
Qed.

Lemma js_truthy_some s : s <> "" -> js_truthy (Some s) = Some s.
Proof. destruct s; simpl; congruence. Qed.

Lemma js_truthy_inv v s : js_truthy v = Some s -> v = Some s /\ s <> "".
Proof.
  destruct v as [[|c t]|]; simpl; intros H; inversion H; subst.
  split; [reflexivity | discriminate].
Qed.

Lemma js_truthy_hmac key msg :
  js_truthy (Some (Crypto.hmac_sha256_hex key msg))
  = Some (Crypto.hmac_sha256_hex key msg).
Proof. apply js_truthy_some, hmac_sha256_hex_nonempty. Qed.

Lemma make_order_id_nonempty now random36 : make_order_id now random36 <> "".
Proof. unfold make_order_id. simpl. discriminate. Qed.

(** [validateWebhook] accepts a body exactly with its digest under the
    webhook secret. *)
Lemma validateWebhook_spec cfg body sg :
  validateWebhook cfg body sg = true
  <-> sg = Crypto.hmac_sha256_hex (Config.webhookSecret cfg) body.
Proof.
  unfold validateWebhook. rewrite String.eqb_eq. split; congruence.
Qed.

(** The signature of the scenario is the digest the service computes. *)
Lemma scenario_signature_valid :
  valid_signature Scenario.cfg Scenario.order_id Scenario.payment_id
    Scenario.signature.
Proof. unfold valid_signature. vm_compute. reflexivity. Qed.

(** ** [Map] laws *)

Section JSMapFacts.
Context {V : Type}.
Implicit Types (m : JSMap V) (k : string) (v : V).

Lemma map_get_set_same k v m : map_get k (map_set k v m) = Some v.
Proof.
  induction m as [|[k' v'] m IH]; simpl.
  - now rewrite String.eqb_refl.
  - destruct (String.eqb k' k) eqn:E; simpl.
    + now rewrite String.eqb_refl.
    + now rewrite E.
Qed.

Lemma map_get_set_other k k' v m :
  k <> k' -> map_get k' (map_set k v m) = map_get k' m.
Proof.
  intros Hne. induction m as [|[k0 v0] m IH]; simpl.
  - destruct (String.eqb_spec k k'); congruence.
  - destruct (String.eqb_spec k0 k) as [->|Hk0]; simpl.
    + destruct (String.eqb_spec k k'); congruence.
    + now rewrite IH.
Qed.

Lemma map_set_set k v1 v2 m : map_set k v2 (map_set k v1 m) = map_set k v2 m.
Proof.
  induction m as [|[k0 v0] m IH]; simpl.
  - now rewrite String.eqb_refl.
  - destruct (String.eqb k0 k) eqn:E; simpl.
    + now rewrite String.eqb_refl.
    + now rewrite E, IH.
Qed.

Lemma map_get_in_keys k v m : map_get k m = Some v -> In k (map_keys m).
Proof.
  induction m as [|[k0 v0] m IH]; simpl; [discriminate|].
  destruct (String.eqb_spec k0 k); auto.
Qed.

Lemma map_get_none_keys k m : map_get k m = None -> ~ In k (map_keys m).
Proof.
  induction m as [|[k0 v0] m IH]; simpl; [tauto|].
  destruct (String.eqb_spec k0 k); [discriminate|].
  intros H [?|?]; [congruence | now apply IH].
Qed.

Lemma map_get_In k v m : map_get k m = Some v -> In (k, v) m.
Proof.
  induction m as [|[k0 v0] m IH]; simpl; [discriminate|].
  destruct (String.eqb_spec k0 k) as [->|?]; intros H.
  - inversion H; auto.
  - auto.
Qed.

Lemma map_In_get k v m : map_ok m -> In (k, v) m -> map_get k m = Some v.
Proof.
  unfold map_ok, map_keys.
  induction m as [|[k0 v0] m IH]; simpl; [tauto|].
  intros Hnd [Heq|Hin]; inversion Hnd as [|? ? Hnot Hnd']; subst.
  - inversion Heq; subst. now rewrite String.eqb_refl.
  - destruct (String.eqb_spec k0 k) as [->|?]; [|auto].
    exfalso. apply Hnot. change k with (fst (k, v)). now apply in_map.
Qed.

(** A key already present keeps its place: the keys do not change. *)
Lemma map_keys_set_present k v v0 m :
  map_get k m = Some v0 -> map_keys (map_set k v m) = map_keys m.
Proof.
  unfold map_keys.
  induction m as [|[k1 v1] m IH]; simpl; [discriminate|].
  destruct (String.eqb_spec k1 k) as [->|?]; intros H; simpl.
  - reflexivity.
  - now rewrite IH.
Qed.

(** A new key goes last. *)
Lemma map_keys_set_absent k v m :
  map_get k m = None -> map_keys (map_set k v m) = map_keys m ++ [k].
Proof.
  unfold map_keys.
  induction m as [|[k1 v1] m IH]; simpl; [reflexivity|].
  destruct (String.eqb_spec k1 k) as [->|?]; intros H; simpl.
  - discriminate.
  - now rewrite IH.
Qed.

Lemma map_ok_set k v m : map_ok m -> map_ok (map_set k v m).
Proof.
  intros Hok. unfold map_ok.
  destruct (map_get k m) as [v0|] eqn:E.
  - now rewrite (map_keys_set_present _ _ _ _ E).
  - rewrite (map_keys_set_absent _ _ _ E).
    apply NoDup_app; [exact Hok | repeat constructor; simpl; tauto |].
    intros x Hx [<-|[]]. now apply (map_get_none_keys _ _ E).
Qed.
End JSMapFacts.

(** ** The stable sort *)

Section SortFacts.
Context {A : Type} (compare : A -> A -> Z).

(** What a comparator must satisfy for the sort to be defined: if [x]
    sorts after [y] then [y] does not sort after [x], and "does not sort
    after" is transitive. *)
Hypothesis compare_total : forall x y, 0 < compare x y -> compare y x <= 0.
Hypothesis compare_trans :
  forall x y z, compare x y <= 0 -> compare y z <= 0 -> compare x z <= 0.

Lemma sort_insert_perm x l : Permutation (sort_insert compare x l) (x :: l).
Proof.
  induction l as [|y l IH]; simpl; [reflexivity|].
  destruct (compare x y <=? 0); [reflexivity|].
  rewrite IH. apply perm_swap.
Qed.

Lemma array_sort_perm l : Permutation (array_sort compare l) l.
Proof.
  induction l as [|x l IH]; simpl; [constructor|].
  rewrite sort_insert_perm. now constructor.
Qed.

Lemma sort_insert_sorted x l :
  StronglySorted (fun a b => compare a b <= 0) l ->
  StronglySorted (fun a b => compare a b <= 0) (sort_insert compare x l).
Proof.
  induction 1 as [|y l Hs IH Hall]; simpl.
  - repeat constructor.
  - destruct (Z.leb_spec (compare x y) 0) as [Hle|Hgt].
    + constructor; [now constructor|].
      constructor; [exact Hle|].
      eapply Forall_impl; [|exact Hall]. intros z Hz. eauto.
    + constructor; [exact IH|].
      rewrite (sort_insert_perm x l). constructor; auto.
Qed.

Lemma array_sort_sorted l :
  StronglySorted (fun a b => compare a b <= 0) (array_sort compare l).
Proof.
  induction l as [|x l IH]; simpl; [constructor|].
  now apply sort_insert_sorted.
Qed.

(** Stability: elements none of which sorts after another keep their
    order. *)
Lemma sort_insert_stable (p : A -> bool) x l :
  (forall a b, p a = true -> p b = true -> compare a b <= 0) ->
  filter p (sort_insert compare x l) = filter p (x :: l).
Proof.
  intros Hp. induction l as [|y l IH]; [reflexivity|].
  cbn [sort_insert].
  destruct (Z.leb_spec (compare x y) 0) as [Hle|Hgt]; [reflexivity|].
  cbn [filter] in *. rewrite IH.
  destruct (p x) eqn:Ex, (p y) eqn:Ey; try reflexivity.
  specialize (Hp x y Ex Ey). lia.
Qed.

Lemma array_sort_stable (p : A -> bool) l :
  (forall a b, p a = true -> p b = true -> compare a b <= 0) ->
  filter p (array_sort compare l) = filter p l.
Proof.
  intros Hp. induction l as [|x l IH]; [reflexivity|].
  cbn [array_sort fold_right].
  change (fold_right (sort_insert compare) [] l) with (array_sort compare l).
  rewrite sort_insert_stable by exact Hp.
  cbn [filter]. now rewrite IH.
Qed.

(** A list sorted without ties is the only sorted arrangement of its
    elements. *)
Lemma sorted_unique s l :
  StronglySorted (fun a b => compare a b <= 0) s ->
  StronglySorted (fun a b => 0 < compare b a) l ->
  Permutation s l -> s = l.
Proof.
  intros Hs Hl. revert s Hs.
  induction Hl as [|a l Hl IH Hall]; intros s Hs Hperm.
  - now apply Permutation_sym, Permutation_nil in Hperm.
  - destruct s as [|b s].
    { apply Permutation_nil in Hperm. discriminate. }
    inversion Hs as [|? ? Hs' Hbs]; subst.
    assert (b = a) as ->.
    { assert (In b (a :: l)) as [?|Hb]
        by (eapply Permutation_in; [exact Hperm | now left]); [congruence|].
      assert (In a (b :: s)) as [?|Ha]
        by (eapply Permutation_in; [symmetry; exact Hperm | now left]);
        [congruence|].
      rewrite Forall_forall in Hall, Hbs.
      specialize (Hall b Hb). specialize (Hbs a Ha). lia. }
    f_equal. apply IH; [exact Hs'|].
    now apply Permutation_cons_inv in Hperm.
Qed.
End SortFacts.

(** The comparator of the history query is a consistent one. *)
Lemma by_created_desc_total x y :
  0 < by_created_desc x y -> by_created_desc y x <= 0.
Proof. unfold by_created_desc. lia. Qed.

Lemma by_created_desc_trans x y z :
  by_created_desc x y <= 0 -> by_created_desc y z <= 0 -> by_created_desc x z <= 0.
Proof. unfold by_created_desc. lia. Qed.

(** ** verifyPayment: what each outcome means *)

Lemma verifyPayment_success cfg t1 t2 pd s oid pid sg o :
  js_truthy (PaymentData.razorpay_order_id pd) = Some oid ->
  js_truthy (PaymentData.razorpay_payment_id pd) = Some pid ->
  js_truthy (PaymentData.razorpay_signature pd) = Some sg ->
  map_get oid (orders s) = Some o ->
  valid_signature cfg oid pid sg ->
  verifyPayment cfg t1 t2 pd s
  = (mkStore (map_set oid (Order.mark_paid pid o) (orders s))
             (map_set pid (payment_record pid oid o t1 t2) (payments s)),
     Return (VerifyResponse.mk true (payment_record pid oid o t1 t2)
               (Order.mark_paid pid o))).
Proof.
  intros Ho Hp Hs Hget Hv. unfold verifyPayment.
  rewrite Ho, Hp, Hs, Hget. red in Hv. rewrite <- Hv, String.eqb_refl.
  reflexivity.
Qed.

Lemma verifyPayment_return_inv cfg t1 t2 pd s s' r :
  verifyPayment cfg t1 t2 pd s = (s', Return r) ->
  exists oid pid sg o,
    js_truthy (PaymentData.razorpay_order_id pd) = Some oid /\
    js_truthy (PaymentData.razorpay_payment_id pd) = Some pid /\
    js_truthy (PaymentData.razorpay_signature pd) = Some sg /\
    map_get oid (orders s) = Some o /\
    valid_signature cfg oid pid sg /\
    s' = mkStore (map_set oid (Order.mark_paid pid o) (orders s))
                 (map_set pid (payment_record pid oid o t1 t2) (payments s)) /\
    r = VerifyResponse.mk true (payment_record pid oid o t1 t2)
          (Order.mark_paid pid o).
Proof.
  unfold verifyPayment.
  destruct (js_truthy (PaymentData.razorpay_order_id pd)) as [oid|]; [|discriminate].
  destruct (js_truthy (PaymentData.razorpay_payment_id pd)) as [pid|]; [|discriminate].
  destruct (js_truthy (PaymentData.razorpay_signature pd)) as [sg|]; [|discriminate].
  destruct (map_get oid (orders s)) as [o|] eqn:Hget; [|discriminate].
  destruct (String.eqb_spec
              (Crypto.hmac_sha256_hex (Config.keySecret cfg)
                 (confirmation_message oid pid)) sg) as [Heq|Hne];
    cbn [negb]; [|discriminate].
  intros H. inversion H; subst s' r.
  exists oid, pid, sg, o. unfold valid_signature. repeat split; congruence.
Qed.

(** Whatever [verifyPayment] throws, it has not touched the store. *)
Lemma verifyPayment_throw_unchanged cfg t1 t2 pd s s' e :
  verifyPayment cfg t1 t2 pd s = (s', Throw e) -> s' = s.
Proof.
  unfold verifyPayment.
  destruct (js_truthy (PaymentData.razorpay_order_id pd)) as [oid|];
    [|intros H; now inversion H].
  destruct (js_truthy (PaymentData.razorpay_payment_id pd)) as [pid|];
    [|intros H; now inversion H].
  destruct (js_truthy (PaymentData.razorpay_signature pd)) as [sg|];
    [|intros H; now inversion H].
  destruct (map_get oid (orders s)) as [o|]; [|intros H; now inversion H].
  destruct (negb _); intros H; now inversion H.
Qed.

(** ** handlePaymentFailure and processWebhook: effect on the store *)

Lemma handlePaymentFailure_store now oid err s o :
  map_get oid (orders s) = Some o ->
  fst (handlePaymentFailure now oid err s)
  = mkStore (map_set oid (Order.mark_failed err now o) (orders s)) (payments s).
Proof.
  intros H. unfold handlePaymentFailure. rewrite H. now destruct err.
Qed.

Lemma handlePaymentFailure_unknown now oid err s :
  map_get oid (orders s) = None -> fst (handlePaymentFailure now oid err s) = s.
Proof.
  intros H. unfold handlePaymentFailure. rewrite H. now destruct err.
Qed.

(** [processWebhook] never changes the store. *)
Lemma processWebhook_store ev s : fst (processWebhook ev s) = s.
Proof.
  unfold processWebhook, call_handler.
  repeat match goal with
         | |- context [if ?b then _ else _] => destruct b
         | |- context [match ?c with Return _ => _ | Throw _ => _ end] => destruct c
         end; reflexivity.
Qed.

(** An event of a type the [switch] does not list is answered with
    success. *)
Lemma processWebhook_unrecognized ev s :
  EventData.event ev <> "payment.captured" ->
  EventData.event ev <> "payment.failed" ->
  EventData.event ev <> "order.paid" ->
  processWebhook ev s = (s, Return (WebhookResponse.mk true)).
Proof.
  intros H1 H2 H3. unfold processWebhook.
  destruct (String.eqb_spec (EventData.event ev) "payment.captured"); [easy|].
  destruct (String.eqb_spec (EventData.event ev) "payment.failed"); [easy|].
  destruct (String.eqb_spec (EventData.event ev) "order.paid"); [easy|].
  reflexivity.
Qed.

(** An event of one of the three listed types always ends in a thrown
    [TypeError]: no handler exists to take it. *)
Lemma processWebhook_recognized_throws ev s :
  In (EventData.event ev) ["payment.captured"; "payment.failed"; "order.paid"] ->
  exists msg, processWebhook ev s = (s, Throw (TypeError msg)).
Proof.
  intros Hin. unfold processWebhook, call_handler, payload_entity, not_a_function.
  destruct Hin as [<-|[<-|[<-|[]]]]; cbn [String.eqb Ascii.eqb Bool.eqb andb];
    destruct (EventData.payload ev) as [p|]; eauto;
    [destruct (Payload.payment p) | destruct (Payload.payment p)
     | destruct (Payload.order p)]; eauto.
Qed.

(** The handlers are indeed no methods of the class. *)
Example handlers_not_declared :
  forallb (fun h => negb (existsb (String.eqb h) PaymentService_methods))
    ["handlePaymentCaptured"; "handlePaymentFailed"; "handleOrderPaid"] = true.
Proof. reflexivity. Qed.

(** ** C2: a failure reported for a paid order *)

(** C2 (as the code has it).  [handlePaymentFailure] does not look at the
    status: on a stored order that is [paid] it sets the status to [failed]
    and records the error data and the instant, as on any other order.  The
    order's other fields (payment id and amount among them), the other
    orders and the payments are left as they were. *)
Theorem C2_failure_applies_to_paid_order now oid err s o :
  map_get oid (orders s) = Some o ->
  Order.status o = paid ->
  exists o',
    map_get oid (orders (fst (handlePaymentFailure now oid err s))) = Some o' /\
    Order.status o' = failed /\
    Order.error o' = err /\
    Order.failedAt o' = Some now /\
    same_but_failure o o' /\
    payments (fst (handlePaymentFailure now oid err s)) = payments s /\
    (forall k, k <> oid ->
       map_get k (orders (fst (handlePaymentFailure now oid err s)))
       = map_get k (orders s)).
Proof.
  intros Hget _. rewrite (handlePaymentFailure_store _ _ _ _ _ Hget).
  cbn [orders payments]. exists (Order.mark_failed err now o).
  split; [apply map_get_set_same|].
  do 3 (split; [reflexivity|]).
  split; [repeat split|]. split; [reflexivity|].
  intros k Hk. apply map_get_set_other. congruence.
Qed.

Lemma C2_failure_witness :
  exists o o',
    map_get Scenario.order_id (orders Scenario.after_verify) = Some o /\
    Order.status o = paid /\
    map_get Scenario.order_id
      (orders (fst (handlePaymentFailure 1700000003000 Scenario.order_id
                      (Some Scenario.failure) Scenario.after_verify))) = Some o' /\
    Order.status o' = failed /\
    Order.paymentId o' = Order.paymentId o.
Proof.
  eexists.
  assert (Hget : map_get Scenario.order_id (orders Scenario.after_verify)
                 = Some (Order.mk Scenario.order_id "order" (Num 29900) "INR" paid 0
                           1700000000
                           (Notes.mk "u1" "standard" "Asha" "9999999999")
                           "u1" "standard" Scenario.details
                           (OwnPlan (Plan.mk 10 299 "Standard Plan"))
                           (Some Scenario.payment_id) None None))
    by (vm_compute; reflexivity).
  destruct (C2_failure_applies_to_paid_order 1700000003000 Scenario.order_id
              (Some Scenario.failure) Scenario.after_verify _ Hget eq_refl)
    as (o' & Hget' & Hst & _ & _ & Hsame & _).
  exists o'.
  exact (conj Hget (conj eq_refl (conj Hget' (conj Hst
           (proj2 (proj2 (proj2 (proj2 (proj2 (proj2 (proj2 (proj2 (proj2
              (proj2 (proj2 Hsame))))))))))))))).
Defined.

(** C2 fails as stated: the order of the scenario is [paid] after its
    confirmation, and a failure callback then marks it [failed]. *)
Lemma C2_counterexample :
  exists o o',
    map_get Scenario.order_id (orders Scenario.after_verify) = Some o /\
    Order.status o = paid /\
    map_get Scenario.order_id
      (orders (fst (handlePaymentFailure 1700000003000 Scenario.order_id
                      (Some Scenario.failure) Scenario.after_verify))) = Some o' /\
    Order.status o' = failed /\
    o' <> o.
Proof.
  do 2 eexists.
  split; [vm_compute; reflexivity|].
  split; [reflexivity|].
  split; [vm_compute; reflexivity|].
  split; [reflexivity|].
  intros H. apply (f_equal Order.status) in H. discriminate H.
Qed.

(** ** Orders along a run *)

(** What one call does to the order store: nothing, or one [set] of an
    order that is new (attempts 0) or an existing order with its attempts
    kept. *)
Lemma exec_orders cfg c s :
  orders (exec cfg c s) = orders s \/
  exists k v,
    orders (exec cfg c s) = map_set k v (orders s) /\
    (Order.attempts v = 0 \/
     exists o, map_get k (orders s) = Some o /\ Order.attempts v = Order.attempts o).
Proof.
  destruct c as [now_id rnd now_c uid pt ud | t1 t2 pd | now oid err | ev];
    cbn [exec].
  - unfold createOrder.
    destruct (plans_get pt); [|now left].
    destruct ud; [|now left].
    right. cbn [fst orders]. eauto.
  - destruct (verifyPayment cfg t1 t2 pd s) as [s' [r|e]] eqn:E; cbn [fst].
    + destruct (verifyPayment_return_inv _ _ _ _ _ _ _ E)
        as (oid & pid & sg & o & _ & _ & _ & Hget & _ & -> & _).
      right. cbn [orders]. exists oid, (Order.mark_paid pid o).
      split; [reflexivity|]. right. eauto.
    + left. now rewrite (verifyPayment_throw_unchanged _ _ _ _ _ _ _ E).
  - destruct (map_get oid (orders s)) as [o|] eqn:Hget.
    + rewrite (handlePaymentFailure_store _ _ _ _ _ Hget). right. cbn [orders].
      exists oid, (Order.mark_failed err now o). split; [reflexivity|]. right. eauto.
    + left. now rewrite (handlePaymentFailure_unknown _ _ _ _ Hget).
  - left. now rewrite processWebhook_store.
Qed.

(** Orders are never deleted. *)
Lemma exec_orders_persist cfg c s oid o :
  map_get oid (orders s) = Some o ->
  exists o', map_get oid (orders (exec cfg c s)) = Some o'.
Proof.
  intros Hget. destruct (exec_orders cfg c s) as [->|(k & v & -> & _)]; [eauto|].
  destruct (String.eqb_spec k oid) as [->|Hne].
  - rewrite map_get_set_same. eauto.
  - rewrite map_get_set_other by exact Hne. eauto.
Qed.

(** No call ever writes an attempts counter other than 0. *)
Lemma reachable_attempts cfg s :
  reachable cfg s ->
  forall oid o, map_get oid (orders s) = Some o -> Order.attempts o = 0.
Proof.
  induction 1 as [|c s Hr IH]; intros oid o Hget.
  - discriminate.
  - destruct (exec_orders cfg c s) as [E|(k & v & E & Hv)]; rewrite E in Hget.
    + eauto.
    + destruct (String.eqb_spec k oid) as [->|Hne].
      * rewrite map_get_set_same in Hget. inversion Hget; subst v.
        destruct Hv as [Hv|(o0 & Ho0 & Hv)]; [exact Hv|].
        rewrite Hv. eauto.
      * rewrite map_get_set_other in Hget by exact Hne. eauto.
Qed.

(** ** C7: the failed transition and the attempts counter *)

(** C7 (as the code has it).  On a stored order that is not [paid],
    [handlePaymentFailure] sets the status to [failed] and records the
    failure detail ([error], [failedAt]); the attempts counter is left as it
    was, not incremented.  Along any run of the service, whatever the call,
    a stored order stays stored and its attempts counter does not
    decrease (no call ever changes it). *)
Theorem C7_failure_keeps_attempts :
  (forall now oid err s o,
     map_get oid (orders s) = Some o ->
     Order.status o <> paid ->
     exists o',
       map_get oid (orders (fst (handlePaymentFailure now oid err s))) = Some o' /\
       Order.status o' = failed /\
       Order.attempts o' = Order.attempts o /\
       Order.error o' = err /\
       Order.failedAt o' = Some now) /\
  (forall cfg s c oid o,
     reachable cfg s ->
     map_get oid (orders s) = Some o ->
     exists o',
       map_get oid (orders (exec cfg c s)) = Some o' /\
       Order.attempts o <= Order.attempts o').
Proof.
  split.
  - intros now oid err s o Hget _.
    rewrite (handlePaymentFailure_store _ _ _ _ _ Hget). cbn [orders].
    exists (Order.mark_failed err now o).
    split; [apply map_get_set_same|]. repeat split.
  - intros cfg s c oid o Hr Hget.
    destruct (exec_orders_persist cfg c s oid o Hget) as [o' Hget'].
    exists o'. split; [exact Hget'|].
    rewrite (reachable_attempts cfg s Hr oid o Hget).
    rewrite (reachable_attempts cfg _ (reachable_step cfg c s Hr) oid o' Hget').
    lia.
Qed.

Lemma reachable_after_create : reachable Scenario.cfg Scenario.after_create.
Proof.
  exact (reachable_step Scenario.cfg
           (CallCreateOrder 1700000000000 "abc123xyz" 1700000000000
              "u1" "standard" (Some Scenario.details))
           empty_store (reachable_init Scenario.cfg)).
Qed.

Lemma after_create_order :
  map_get Scenario.order_id (orders Scenario.after_create)
  = Some (Order.mk Scenario.order_id "order" (Num 29900) "INR" created 0
            1700000000 (Notes.mk "u1" "standard" "Asha" "9999999999")
            "u1" "standard" Scenario.details
            (OwnPlan (Plan.mk 10 299 "Standard Plan")) None None None).
Proof. vm_compute. reflexivity. Qed.

Lemma C7_failure_witness :
  (exists o',
     map_get Scenario.order_id (orders Scenario.after_failure) = Some o' /\
     Order.status o' = failed /\ Order.attempts o' = 0) /\
  (exists o',
     map_get Scenario.order_id
       (orders (exec Scenario.cfg
                  (CallHandlePaymentFailure 1700000002000 Scenario.order_id
                     (Some Scenario.failure))
                  Scenario.after_create)) = Some o' /\
     0 <= Order.attempts o').
Proof.
  split.
  - destruct (proj1 C7_failure_keeps_attempts 1700000002000 Scenario.order_id
                (Some Scenario.failure) Scenario.after_create _ after_create_order)
      as (o' & H1 & H2 & H3 & _); [discriminate|].
    exists o'. exact (conj H1 (conj H2 H3)).
  - exact (proj2 C7_failure_keeps_attempts Scenario.cfg Scenario.after_create
             (CallHandlePaymentFailure 1700000002000 Scenario.order_id
                (Some Scenario.failure))
             Scenario.order_id _ reachable_after_create after_create_order).
Defined.

(** C7 fails as stated: the order of the scenario, in status [created]
    with 0 attempts, is marked [failed] by a failure callback and its
    attempts counter is still 0, not 1. *)
Lemma C7_counterexample :
  exists o o',
    map_get Scenario.order_id (orders Scenario.after_create) = Some o /\
    Order.status o = created /\
    map_get Scenario.order_id (orders Scenario.after_failure) = Some o' /\
    Order.status o' = failed /\
    Order.attempts o' = Order.attempts o /\
    Order.attempts o' <> Order.attempts o + 1.
Proof.
  do 2 eexists.
  split; [vm_compute; reflexivity|].
  split; [reflexivity|].
  split; [vm_compute; reflexivity|].
  split; [reflexivity|].
  split; [reflexivity|].
  cbn [Order.attempts]. lia.
Qed.

(** ** C3: a confirmation whose signature is not the digest *)

(** C3 (as the code has it).  For a stored order and a confirmation whose
    signature is not the digest of [orderId|paymentId] under the
    client-confirmation secret, [verifyPayment] throws and the store is
    exactly what it was (no Payment created, the order untouched).  The
    error is the invalid-signature one when payment id and signature are
    both present and non-empty; when one of them is missing or empty the
    guard of line 124 answers first, with the missing-data error. *)
Theorem C3_bad_signature_rejected cfg t1 t2 pd s oid o :
  js_truthy (PaymentData.razorpay_order_id pd) = Some oid ->
  map_get oid (orders s) = Some o ->
  (forall pid sg,
     PaymentData.razorpay_payment_id pd = Some pid ->
     PaymentData.razorpay_signature pd = Some sg ->
     ~ valid_signature cfg oid pid sg) ->
  verifyPayment cfg t1 t2 pd s
  = (s, Throw (Error ("Payment verification failed: " +:+
                match js_truthy (PaymentData.razorpay_payment_id pd),
                      js_truthy (PaymentData.razorpay_signature pd) with
                | Some _, Some _ => "Invalid payment signature"
                | _, _ => "Missing payment verification data"
                end))).
Proof.
  intros Ho Hget Hbad. unfold verifyPayment. rewrite Ho.
  destruct (js_truthy (PaymentData.razorpay_payment_id pd)) as [pid|] eqn:Hp;
    [|reflexivity].
  destruct (js_truthy (PaymentData.razorpay_signature pd)) as [sg|] eqn:Hs;
    [|reflexivity].
  rewrite Hget.
  apply js_truthy_inv in Hp as [Hp _]. apply js_truthy_inv in Hs as [Hs _].
  specialize (Hbad pid sg Hp Hs). unfold valid_signature in Hbad.
  destruct (String.eqb_spec
              (Crypto.hmac_sha256_hex (Config.keySecret cfg)
                 (confirmation_message oid pid)) sg) as [Heq|Hne];
    [congruence | reflexivity].
Qed.

(** The signature of the scenario is not valid for another payment id. *)
Lemma C3_bad_signature_witness :
  verifyPayment Scenario.cfg 1700000001000 1700000001000
    (PaymentData.mk (Some Scenario.order_id) (Some "pay_2")
       (Some Scenario.signature) [])
    Scenario.after_create
  = (Scenario.after_create,
     Throw (Error "Payment verification failed: Invalid payment signature")).
Proof.
  refine (C3_bad_signature_rejected Scenario.cfg 1700000001000 1700000001000
            (PaymentData.mk (Some Scenario.order_id) (Some "pay_2")
               (Some Scenario.signature) [])
            Scenario.after_create Scenario.order_id _ eq_refl after_create_order _).
  intros pid sg Hp Hs Hv. inversion Hp; inversion Hs; subst pid sg.
  unfold valid_signature in Hv. vm_compute in Hv. discriminate Hv.
Defined.

(** C3 fails as stated, on the stored order of the scenario.  A
    confirmation with an empty payment id whose signature is a genuine
    digest, computed for the pair [order_id|pay_1], does not carry the
    digest of its own pair; it is rejected with the missing-data error, not
    the invalid-signature one.  So is a confirmation whose signature is the
    empty string. *)
Lemma C3_counterexample :
  (exists o,
     map_get Scenario.order_id (orders Scenario.after_create) = Some o /\
     Order.status o = created) /\
  ~ valid_signature Scenario.cfg Scenario.order_id "" Scenario.signature /\
  verifyPayment Scenario.cfg 1700000001000 1700000001000
    (PaymentData.mk (Some Scenario.order_id) (Some "")
       (Some Scenario.signature) [])
    Scenario.after_create
  = (Scenario.after_create,
     Throw (Error "Payment verification failed: Missing payment verification data")) /\
  ~ valid_signature Scenario.cfg Scenario.order_id Scenario.payment_id "" /\
  verifyPayment Scenario.cfg 1700000001000 1700000001000
    (PaymentData.mk (Some Scenario.order_id) (Some Scenario.payment_id)
       (Some "") [])
    Scenario.after_create
  = (Scenario.after_create,
     Throw (Error "Payment verification failed: Missing payment verification data")) /\
  Error "Payment verification failed: Missing payment verification data"
  <> Error "Payment verification failed: Invalid payment signature".
Proof.
  split; [eexists; split; [exact after_create_order | reflexivity]|].
  split; [unfold valid_signature; intros Hv; vm_compute in Hv; discriminate Hv|].
  split; [vm_compute; reflexivity|].
  split; [unfold valid_signature; intros Hv; symmetry in Hv;
          exact (hmac_sha256_hex_nonempty _ _ Hv)|].
  split; [vm_compute; reflexivity | discriminate].
Qed.

(** ** C8: a confirmation for an unknown order *)

(** C8 (as the code has it).  For a confirmation whose order id is not a
    key of the order store, [verifyPayment] throws and the store is exactly
    what it was; the signature is not looked at, so the outcome is the same
    whether it is valid or not.  The error is the order-not-found one when
    the three fields are present and non-empty; when one of them is missing
    or empty the guard of line 124 answers first, with the missing-data
    error. *)
Theorem C8_unknown_order_rejected cfg t1 t2 pd s :
  (forall oid,
     PaymentData.razorpay_order_id pd = Some oid ->
     map_get oid (orders s) = None) ->
  verifyPayment cfg t1 t2 pd s
  = (s, Throw (Error ("Payment verification failed: " +:+
                match js_truthy (PaymentData.razorpay_order_id pd),
                      js_truthy (PaymentData.razorpay_payment_id pd),
                      js_truthy (PaymentData.razorpay_signature pd) with
                | Some _, Some _, Some _ => "Order not found"
                | _, _, _ => "Missing payment verification data"
                end))).
Proof.
  intros Habsent. unfold verifyPayment.
  destruct (js_truthy (PaymentData.razorpay_order_id pd)) as [oid|] eqn:Ho;
    [|reflexivity].
  destruct (js_truthy (PaymentData.razorpay_payment_id pd)) as [pid|];
    [|reflexivity].
  destruct (js_truthy (PaymentData.razorpay_signature pd)) as [sg|];
    [|reflexivity].
  apply js_truthy_inv in Ho as [Ho _]. now rewrite (Habsent oid Ho).
Qed.

(** The valid confirmation of the scenario, sent before the order exists. *)
Lemma C8_unknown_order_witness :
  verifyPayment Scenario.cfg 1700000001000 1700000001000
    Scenario.confirmation empty_store
  = (empty_store, Throw (Error "Payment verification failed: Order not found")).
Proof.
  refine (C8_unknown_order_rejected Scenario.cfg 1700000001000 1700000001000
            Scenario.confirmation empty_store _).
  intros oid _. reflexivity.
Defined.

(** C8 fails as stated: the order id of this confirmation is not in the
    (empty) store, its payment id is empty, and the error is the
    missing-data one, not order-not-found.  The same happens when the
    confirmation has no order id at all. *)
Lemma C8_counterexample :
  map_get Scenario.order_id (orders empty_store) = None /\
  verifyPayment Scenario.cfg 1700000001000 1700000001000
    (PaymentData.mk (Some Scenario.order_id) (Some "") (Some Scenario.signature) [])
    empty_store
  = (empty_store,
     Throw (Error "Payment verification failed: Missing payment verification data")) /\
  verifyPayment Scenario.cfg 1700000001000 1700000001000
    (PaymentData.mk None (Some Scenario.payment_id) (Some Scenario.signature) [])
    empty_store
  = (empty_store,
     Throw (Error "Payment verification failed: Missing payment verification data")) /\
  Error "Payment verification failed: Missing payment verification data"
  <> Error "Payment verification failed: Order not found".
Proof.
  split; [reflexivity|]. split; [reflexivity|]. split; [reflexivity | discriminate].
Qed.

(** ** C4, C5: webhook dispatch *)

(** C4 (what the code does).  A [payment.captured] event for the created
    order of the scenario: the call of [this.handlePaymentCaptured] throws,
    no paid transition takes place, and the outcome is the rejection, not
    success.  The same holds for [order.paid] and [payment.failed]; an
    event of an unlisted type is answered with success and nothing
    changes. *)
Theorem C4_dispatch_throws :
  processWebhook (Scenario.webhook "payment.captured") Scenario.after_create
  = (Scenario.after_create,
     Throw (TypeError "this.handlePaymentCaptured is not a function")) /\
  processWebhook (Scenario.webhook "order.paid") Scenario.after_create
  = (Scenario.after_create,
     Throw (TypeError "this.handleOrderPaid is not a function")) /\
  processWebhook (Scenario.webhook "payment.failed") Scenario.after_create
  = (Scenario.after_create,
     Throw (TypeError "this.handlePaymentFailed is not a function")) /\
  processWebhook (Scenario.webhook "refund.created") Scenario.after_create
  = (Scenario.after_create, Return (WebhookResponse.mk true)).
Proof. repeat split. Qed.

(** C5 (what the code does).  The order of the scenario is [failed] after
    a failure callback.  An [order.paid] webhook for it throws: the order
    stays [failed] and no Payment exists.  (The client confirmation, on the
    same store, does make it [paid] with one Payment.) *)
Theorem C5_order_paid_webhook_throws :
  (exists o,
     map_get Scenario.order_id (orders Scenario.after_failure) = Some o /\
     Order.status o = failed) /\
  processWebhook (Scenario.webhook "order.paid") Scenario.after_failure
  = (Scenario.after_failure,
     Throw (TypeError "this.handleOrderPaid is not a function")) /\
  payments Scenario.after_failure = [] /\
  (exists s' r,
     verifyPayment Scenario.cfg 1700000005000 1700000005000
       Scenario.confirmation Scenario.after_failure = (s', Return r) /\
     Order.status (VerifyResponse.order r) = paid /\
     map_get Scenario.order_id (orders s') = Some (VerifyResponse.order r) /\
     payments s' = [(Scenario.payment_id, VerifyResponse.payment r)]).
Proof.
  split; [eexists; split; [vm_compute; reflexivity | reflexivity]|].
  split; [reflexivity|].
  split; [reflexivity|].
  do 2 eexists.
  split; [vm_compute; reflexivity|].
  split; [reflexivity|].
  split; vm_compute; reflexivity.
Qed.

(** ** C6: where a Payment's amount comes from *)

(** C6.  Whenever [verifyPayment] succeeds, the Payment it stores (and
    returns) has the amount and the currency of the order as stored before
    the call, which are also those of the order as stored after it.  What
    else the client put into the confirmation has no influence on the
    outcome.  In particular an order created for plan [standard] is stored
    with amount 29900, and the Payment of its confirmation carries 29900
    too. *)
Theorem C6_payment_amount_from_order :
  (forall cfg t1 t2 pd s s' r,
     verifyPayment cfg t1 t2 pd s = (s', Return r) ->
     exists oid pid o,
       js_truthy (PaymentData.razorpay_order_id pd) = Some oid /\
       js_truthy (PaymentData.razorpay_payment_id pd) = Some pid /\
       map_get oid (orders s) = Some o /\
       map_get oid (orders s') = Some (VerifyResponse.order r) /\
       map_get pid (payments s') = Some (VerifyResponse.payment r) /\
       Payment.amount (VerifyResponse.payment r) = Order.amount o /\
       Payment.currency (VerifyResponse.payment r) = Order.currency o /\
       Order.amount (VerifyResponse.order r) = Order.amount o /\
       Order.currency (VerifyResponse.order r) = Order.currency o) /\
  (forall cfg t1 t2 pd other' s,
     verifyPayment cfg t1 t2
       (PaymentData.mk (PaymentData.razorpay_order_id pd)
          (PaymentData.razorpay_payment_id pd)
          (PaymentData.razorpay_signature pd) other') s
     = verifyPayment cfg t1 t2 pd s) /\
  (forall cfg now_id random36 now_created userId ud t1 t2 pid other s,
     pid <> "" ->
     exists s1 d s2 r o,
       createOrder cfg now_id random36 now_created userId "standard" (Some ud) s
       = (s1, Return d) /\
       Checkout.amount (CreateResponse.order d) = Num 29900 /\
       map_get (make_order_id now_id random36) (orders s1) = Some o /\
       Order.amount o = Num 29900 /\
       Order.status o = created /\
       verifyPayment cfg t1 t2
         (PaymentData.mk (Some (make_order_id now_id random36)) (Some pid)
            (Some (Crypto.hmac_sha256_hex (Config.keySecret cfg)
                     (confirmation_message (make_order_id now_id random36) pid)))
            other) s1
       = (s2, Return r) /\
       Payment.amount (VerifyResponse.payment r) = Num 29900 /\
       Order.amount (VerifyResponse.order r) = Num 29900 /\
       Order.status (VerifyResponse.order r) = paid /\
       map_get pid (payments s2) = Some (VerifyResponse.payment r)).
Proof.
  split; [|split].
  - intros cfg t1 t2 pd s s' r H.
    destruct (verifyPayment_return_inv _ _ _ _ _ _ _ H)
      as (oid & pid & sg & o & Ho & Hp & _ & Hget & _ & -> & ->).
    exists oid, pid, o. cbn [orders payments VerifyResponse.order VerifyResponse.payment].
    rewrite !map_get_set_same. repeat split; assumption.
  - intros. reflexivity.
  - intros cfg now_id random36 now_created userId ud t1 t2 pid other s Hpid.
    unfold createOrder. cbn [plans_get map_get plans String.eqb Ascii.eqb Bool.eqb].
    do 5 eexists.
    split; [reflexivity|]. split; [reflexivity|].
    cbn [orders]. split; [apply map_get_set_same|].
    split; [reflexivity|]. split; [reflexivity|].
    split.
    { eapply verifyPayment_success; cbn [PaymentData.razorpay_order_id
        PaymentData.razorpay_payment_id PaymentData.razorpay_signature orders].
      - apply js_truthy_some, make_order_id_nonempty.
      - apply js_truthy_some, Hpid.
      - apply js_truthy_hmac.
      - apply map_get_set_same.
      - reflexivity. }
    cbn [VerifyResponse.payment VerifyResponse.order payments].
    split; [reflexivity|]. split; [reflexivity|]. split; [reflexivity|].
    apply map_get_set_same.
Qed.

Lemma C6_payment_amount_witness :
  (exists o r,
     map_get Scenario.order_id (orders Scenario.after_create) = Some o /\
     snd (verifyPayment Scenario.cfg 1700000001000 1700000001000
            Scenario.confirmation Scenario.after_create) = Return r /\
     Payment.amount (VerifyResponse.payment r) = Order.amount o) /\
  (exists r,
     snd (verifyPayment Scenario.cfg 1700000001000 1700000001000
            Scenario.confirmation Scenario.after_create) = Return r /\
     Payment.amount (VerifyResponse.payment r) = Num 29900).
Proof.
  assert (Hrun : exists r,
    verifyPayment Scenario.cfg 1700000001000 1700000001000
      Scenario.confirmation Scenario.after_create
    = (Scenario.after_verify, Return r))
    by (eexists; vm_compute; reflexivity).
  destruct Hrun as [r Hrun].
  split.
  - destruct (proj1 C6_payment_amount_from_order _ _ _ _ _ _ _ Hrun)
      as (oid & pid & o & Ho & _ & Hget & _ & _ & Ha & _).
    apply js_truthy_inv in Ho as [Ho _]. cbn in Ho. inversion Ho; subst oid.
    exists o, r. rewrite Hrun. exact (conj Hget (conj eq_refl Ha)).
  - destruct (proj2 (proj2 C6_payment_amount_from_order) Scenario.cfg
                1700000000000 "abc123xyz" 1700000000000 "u1" Scenario.details
                1700000001000 1700000001000 Scenario.payment_id
                [("amount", "1")] empty_store)
      as (s1 & d & s2 & r' & o & Hc & _ & _ & _ & _ & Hv & Ha & _);
      [discriminate|].
    exists r.
    assert (Hs1 : s1 = Scenario.after_create)
      by (apply (f_equal fst) in Hc; symmetry; exact Hc).
    subst s1.
    assert (Hsig : Crypto.hmac_sha256_hex (Config.keySecret Scenario.cfg)
                     (confirmation_message
                        (make_order_id 1700000000000 "abc123xyz")
                        Scenario.payment_id)
                   = Scenario.signature) by (vm_compute; reflexivity).
    rewrite Hsig in Hv.
    change (make_order_id 1700000000000 "abc123xyz") with Scenario.order_id in Hv.
    change (PaymentData.mk (Some Scenario.order_id) (Some Scenario.payment_id)
              (Some Scenario.signature) [("amount", "1")])
      with Scenario.confirmation in Hv.
    rewrite Hrun in Hv.
    assert (r' = r) as ->
      by (apply (f_equal snd) in Hv; cbn [snd] in Hv; congruence).
    rewrite Hrun. exact (conj eq_refl Ha).
Defined.

(** ** Sorted lists *)

Lemma StronglySorted_weaken {A : Type} (R R' : A -> A -> Prop) l :
  (forall a b, R a b -> R' a b) -> StronglySorted R l -> StronglySorted R' l.
Proof.
  intros HR. induction 1 as [|a l Hs IH Hall]; constructor; [exact IH|].
  eapply Forall_impl; [|exact Hall]. intros b. apply HR.
Qed.

(** ** What every reachable store satisfies *)

Lemma store_inv_empty : store_inv empty_store.
Proof.
  repeat split; try discriminate. constructor.
Qed.

Lemma store_inv_createOrder cfg now_id rnd now_c uid pt ud s :
  store_inv s -> store_inv (fst (createOrder cfg now_id rnd now_c uid pt ud s)).
Proof.
  intros (I1 & I2 & I3 & I4). unfold createOrder.
  destruct (plans_get pt) as [plan|]; [|now repeat split].
  destruct ud as [ud|]; [|now repeat split].
  cbn [fst]. unfold store_inv. cbn [orders payments].
  split; [exact I1|]. split; [exact I2|]. split.
  - intros k o pid Hget Hpid.
    destruct (String.eqb_spec (make_order_id now_id rnd) k) as [<-|Hne].
    + rewrite map_get_set_same in Hget. inversion Hget; subst o. discriminate.
    + rewrite map_get_set_other in Hget by exact Hne. eauto.
  - intros k o pid p Hget Hpid Hp Hback.
    destruct (String.eqb_spec (make_order_id now_id rnd) k) as [<-|Hne].
    + rewrite map_get_set_same in Hget. inversion Hget; subst o. discriminate.
    + rewrite map_get_set_other in Hget by exact Hne. eauto.
Qed.

Lemma store_inv_verifyPayment cfg t1 t2 pd s :
  store_inv s -> store_inv (fst (verifyPayment cfg t1 t2 pd s)).
Proof.
  intros Hinv.
  destruct (verifyPayment cfg t1 t2 pd s) as [s' [r|e]] eqn:E; cbn [fst];
    [|now rewrite (verifyPayment_throw_unchanged _ _ _ _ _ _ _ E)].
  destruct (verifyPayment_return_inv _ _ _ _ _ _ _ E)
    as (oid & pid & sg & o0 & _ & Hp & _ & Hget0 & _ & -> & _).
  apply js_truthy_inv in Hp as [_ Hpid].
  destruct Hinv as (I1 & I2 & I3 & I4).
  unfold store_inv. cbn [orders payments].
  split; [now apply map_ok_set|]. split; [|split].
  - intros k p Hget.
    destruct (String.eqb_spec pid k) as [<-|Hne].
    + rewrite map_get_set_same in Hget. now inversion Hget.
    + rewrite map_get_set_other in Hget by exact Hne. eauto.
  - intros k o pid' Hget Hpid'.
    destruct (String.eqb_spec oid k) as [<-|Hne].
    + rewrite map_get_set_same in Hget. inversion Hget; subst o.
      cbn in Hpid'. congruence.
    + rewrite map_get_set_other in Hget by exact Hne. eauto.
  - intros k o pid' p Hget Hpid' Hgetp Hback.
    destruct (String.eqb_spec pid pid') as [<-|Hnp].
    + rewrite map_get_set_same in Hgetp. inversion Hgetp; subst p.
      cbn in Hback. subst k.
      rewrite map_get_set_same in Hget. inversion Hget; subst o. reflexivity.
    + rewrite map_get_set_other in Hgetp by exact Hnp.
      destruct (String.eqb_spec oid k) as [<-|Hne].
      * rewrite map_get_set_same in Hget. inversion Hget; subst o.
        cbn in Hpid'. congruence.
      * rewrite map_get_set_other in Hget by exact Hne. eauto.
Qed.

Lemma store_inv_handlePaymentFailure now oid err s :
  store_inv s -> store_inv (fst (handlePaymentFailure now oid err s)).
Proof.
  intros Hinv.
  destruct (map_get oid (orders s)) as [o0|] eqn:Hget0;
    [|now rewrite (handlePaymentFailure_unknown _ _ _ _ Hget0)].
  rewrite (handlePaymentFailure_store _ _ _ _ _ Hget0).
  destruct Hinv as (I1 & I2 & I3 & I4).
  unfold store_inv. cbn [orders payments].
  split; [exact I1|]. split; [exact I2|]. split.
  - intros k o pid Hget Hpid.
    destruct (String.eqb_spec oid k) as [<-|Hne].
    + rewrite map_get_set_same in Hget. inversion Hget; subst o.
      cbn in Hpid. eauto.
    + rewrite map_get_set_other in Hget by exact Hne. eauto.
  - intros k o pid p Hget Hpid Hgetp Hback.
    destruct (String.eqb_spec oid k) as [<-|Hne].
    + rewrite map_get_set_same in Hget. inversion Hget; subst o.
      cbn in Hpid. cbn [Order.mark_failed Order.amount]. eauto.
    + rewrite map_get_set_other in Hget by exact Hne. eauto.
Qed.

Lemma reachable_store_inv cfg s : reachable cfg s -> store_inv s.
Proof.
  induction 1 as [|c s Hr IH]; [exact store_inv_empty|].
  destruct c; cbn [exec].
  - now apply store_inv_createOrder.
  - now apply store_inv_verifyPayment.
  - now apply store_inv_handlePaymentFailure.
  - now rewrite processWebhook_store.
Qed.

(** ** Entries of the history *)

Lemma history_entry_of userId s e :
  In e (getUserPayments userId s) ->
  exists k p, In (k, p) (payments s) /\ e = history_entry p.
Proof.
  intros Hin. unfold getUserPayments in Hin.
  apply (Permutation_in _ (array_sort_perm by_created_desc _)) in Hin.
  apply in_map_iff in Hin as (p & <- & Hp).
  unfold user_payments in Hp. apply filter_In in Hp as [Hp _].
  unfold map_values in Hp. apply in_map_iff in Hp as ([k p'] & Heq & Hin).
  cbn in Heq. subst p'. eauto.
Qed.

Lemma history_entry_in s k p :
  In (k, p) (payments s) ->
  In (history_entry p) (getUserPayments (Payment.userId p) s).
Proof.
  intros Hin. unfold getUserPayments.
  apply (Permutation_in _ (Permutation_sym (array_sort_perm by_created_desc _))).
  apply in_map. unfold user_payments. apply filter_In. split.
  - unfold map_values. change p with (snd (k, p)). now apply in_map.
  - apply String.eqb_refl.
Qed.

(** The figures of the scenario: 29900 in the status snapshot, 299 in the
    history. *)
Example scenario_figures :
  option_map (fun snap => OrderSnapshot.amount (StatusSnapshot.order snap))
    (getPaymentStatus Scenario.order_id Scenario.after_verify) = Some (Num 29900) /\
  map HistoryEntry.amount (getUserPayments "u1" Scenario.after_verify)
  = [Quot (29900 # 100)] /\
  (29900 # 100 == 299)%Q.
Proof. split; [|split]; vm_compute; reflexivity. Qed.

(** ** Further properties of the two paid paths *)

(** The client confirmation does recover a failed order: for a stored
    order in status [failed] and a validly signed confirmation whose
    payment id is new to the payment store, [verifyPayment] returns, the
    order is stored as [paid] with that payment id, and exactly one Payment
    is added, under that id, at the end of the [Map]. *)
Theorem verifyPayment_recovers_failed_order cfg t1 t2 pd s oid pid sg o :
  js_truthy (PaymentData.razorpay_order_id pd) = Some oid ->
  js_truthy (PaymentData.razorpay_payment_id pd) = Some pid ->
  js_truthy (PaymentData.razorpay_signature pd) = Some sg ->
  valid_signature cfg oid pid sg ->
  map_get oid (orders s) = Some o ->
  Order.status o = failed ->
  map_get pid (payments s) = None ->
  exists s' r,
    verifyPayment cfg t1 t2 pd s = (s', Return r) /\
    map_get oid (orders s') = Some (VerifyResponse.order r) /\
    Order.status (VerifyResponse.order r) = paid /\
    Order.paymentId (VerifyResponse.order r) = Some pid /\
    map_get pid (payments s') = Some (VerifyResponse.payment r) /\
    Payment.orderId (VerifyResponse.payment r) = oid /\
    payments s' = payments s ++ [(pid, VerifyResponse.payment r)].
Proof.
  intros Ho Hp Hs Hv Hget _ Hnew.
  do 2 eexists. split; [eapply verifyPayment_success; eassumption|].
  cbn [orders payments VerifyResponse.order VerifyResponse.payment].
  split; [apply map_get_set_same|].
  do 2 (split; [reflexivity|]).
  split; [apply map_get_set_same|].
  split; [reflexivity|].
  clear - Hnew. induction (payments s) as [|[k v] m IH]; [reflexivity|].
  cbn [map_get map_set app] in *.
  destruct (String.eqb k pid); [discriminate|]. now rewrite IH.
Qed.

Lemma verifyPayment_recovers_witness :
  exists s' r,
    verifyPayment Scenario.cfg 1700000005000 1700000005000
      Scenario.confirmation Scenario.after_failure = (s', Return r) /\
    Order.status (VerifyResponse.order r) = paid /\
    payments s' = [(Scenario.payment_id, VerifyResponse.payment r)].
Proof.
  assert (Hget : map_get Scenario.order_id (orders Scenario.after_failure)
                 = Some (Order.mark_failed (Some Scenario.failure) 1700000002000
                           (Order.mk Scenario.order_id "order" (Num 29900) "INR"
                              created 0 1700000000
                              (Notes.mk "u1" "standard" "Asha" "9999999999")
                              "u1" "standard" Scenario.details
                              (OwnPlan (Plan.mk 10 299 "Standard Plan"))
                              None None None)))
    by (vm_compute; reflexivity).
  destruct (verifyPayment_recovers_failed_order Scenario.cfg
              1700000005000 1700000005000 Scenario.confirmation
              Scenario.after_failure Scenario.order_id Scenario.payment_id
              Scenario.signature _ eq_refl eq_refl eq_refl
              scenario_signature_valid Hget eq_refl eq_refl)
    as (s' & r & Hv & _ & Hst & _ & _ & _ & Hpay).
  exists s', r. exact (conj Hv (conj Hst Hpay)).
Defined.

(** What [processWebhook] does with any event: the store is never
    changed; an event of one of the three listed types ends in a thrown
    [TypeError]; any other event is answered with success. *)
Theorem processWebhook_outcomes ev s :
  fst (processWebhook ev s) = s /\
  (In (EventData.event ev) ["payment.captured"; "payment.failed"; "order.paid"] ->
   exists msg, snd (processWebhook ev s) = Throw (TypeError msg)) /\
  (~ In (EventData.event ev) ["payment.captured"; "payment.failed"; "order.paid"] ->
   snd (processWebhook ev s) = Return (WebhookResponse.mk true)).
Proof.
  split; [apply processWebhook_store|]. split.
  - intros Hin. destruct (processWebhook_recognized_throws ev s Hin) as [msg ->].
    now exists msg.
  - intros Hnot. rewrite processWebhook_unrecognized; [reflexivity|..];
      intros E; apply Hnot; rewrite E; cbn; tauto.
Qed.

Lemma processWebhook_outcomes_witness :
  (exists msg,
     snd (processWebhook (Scenario.webhook "payment.failed") Scenario.after_verify)
     = Throw (TypeError msg)) /\
  snd (processWebhook (Scenario.webhook "refund.created") Scenario.after_verify)
  = Return (WebhookResponse.mk true).
Proof.
  split.
  - apply (proj1 (proj2 (processWebhook_outcomes
                           (Scenario.webhook "payment.failed") Scenario.after_verify))).
    cbn. tauto.
  - apply (proj2 (proj2 (processWebhook_outcomes
                           (Scenario.webhook "refund.created") Scenario.after_verify))).
    cbn. intros [H|[H|[H|[]]]]; discriminate H.
Defined.

(* ===================================================================== *)
(** * Further properties of the service *)

(** ** The plan table: getAllPlans, getPlanDetails, createOrder *)

Lemma map_get_set_exists {V : Type} (k k' : string) (v v' : V) (m : JSMap V) :
  map_get k m = Some v -> exists w, map_get k (map_set k' v' m) = Some w.
Proof.
  intros H. destruct (String.eqb_spec k' k) as [->|Hne].
  - rewrite map_get_set_same. eauto.
  - rewrite map_get_set_other by exact Hne. eauto.
Qed.

Lemma plans_get_own pt p : map_get pt plans = Some p -> plans_get pt = Some (OwnPlan p).
Proof. unfold plans_get. now intros ->. Qed.

Lemma plans_get_inherited pt :
  In pt object_prototype_keys -> plans_get pt = Some (Inherited pt).
Proof.
  intros Hin. cbn in Hin.
  repeat (destruct Hin as [<-|Hin]; [reflexivity|]). destruct Hin.
Qed.

(** What [getAllPlans] lists is what [getPlanDetails] finds: every listed
    plan is found under its id with the listed questions, price and name;
    every catalogue plan that [getPlanDetails] finds is listed; the ids are
    [basic], [standard], [premium], [report], each once. *)
Theorem getAllPlans_agrees_with_getPlanDetails :
  (forall e, In e getAllPlans ->
     getPlanDetails (PlanListing.id e)
     = Some (OwnPlan (Plan.mk (PlanListing.questions e) (PlanListing.price e)
                        (PlanListing.name e)))) /\
  (forall k p, getPlanDetails k = Some (OwnPlan p) ->
     In (PlanListing.mk k (Plan.questions p) (Plan.price p) (Plan.name p))
        getAllPlans) /\
  map PlanListing.id getAllPlans = ["basic"; "standard"; "premium"; "report"] /\
  NoDup (map PlanListing.id getAllPlans).
Proof.
  split; [|split; [|split]].
  - intros e Hin. cbn in Hin.
    repeat (destruct Hin as [<-|Hin]; [reflexivity|]). destruct Hin.
  - intros k p H. unfold getPlanDetails, plans_get in H.
    destruct (map_get k plans) as [p'|] eqn:E.
    + inversion H; subst p'. apply map_get_In in E.
      unfold getAllPlans.
      change (PlanListing.mk k (Plan.questions p) (Plan.price p) (Plan.name p))
        with ((fun entry : string * Plan.t =>
                 PlanListing.mk (fst entry) (Plan.questions (snd entry))
                   (Plan.price (snd entry)) (Plan.name (snd entry))) (k, p)).
      now apply in_map.
    + destruct (existsb _ _); discriminate.
  - reflexivity.
  - cbn. repeat constructor; cbn; intuition discriminate.
Qed.

Lemma getAllPlans_witness :
  getPlanDetails "premium" = Some (OwnPlan (Plan.mk 20 399 "Premium Plan")) /\
  In (PlanListing.mk "report" 0 999 "Full Report") getAllPlans.
Proof.
  split.
  - apply (proj1 getAllPlans_agrees_with_getPlanDetails
             (PlanListing.mk "premium" 20 399 "Premium Plan")).
    cbn. tauto.
  - apply (proj1 (proj2 getAllPlans_agrees_with_getPlanDetails)
             "report" (Plan.mk 0 999 "Full Report")).
    reflexivity.
Defined.

(** [createOrder] throws exactly when the plan type is unknown to
    [getPlanDetails] or [userDetails] is undefined; it then leaves the
    store as it was.  For an unknown plan type the error is the
    invalid-plan one, whatever [userDetails] is. *)
Theorem createOrder_throws_iff cfg now_id rnd now_c uid pt ud s :
  ((exists s' e,
      createOrder cfg now_id rnd now_c uid pt ud s = (s', Throw e))
   <-> getPlanDetails pt = None \/ ud = None) /\
  (forall s' e,
     createOrder cfg now_id rnd now_c uid pt ud s = (s', Throw e) -> s' = s) /\
  (getPlanDetails pt = None ->
   createOrder cfg now_id rnd now_c uid pt ud s
   = (s, Throw (Error "Failed to create payment order: Invalid plan type"))).
Proof.
  unfold getPlanDetails, createOrder.
  destruct (plans_get pt) as [plan|]; [destruct ud as [u|]|].
  - split; [split|split].
    + intros (s' & e & H). discriminate.
    + intros [H|H]; discriminate.
    + intros s' e H. discriminate.
    + discriminate.
  - split; [split|split].
    + now right.
    + intros _. eauto.
    + intros s' e H. now inversion H.
    + discriminate.
  - split; [split|split].
    + now left.
    + intros _. eauto.
    + intros s' e H. now inversion H.
    + reflexivity.
Qed.

Lemma createOrder_throws_witness :
  createOrder Scenario.cfg 1700000000000 "abc123xyz" 1700000000000
    "u1" "gold" None Scenario.after_verify
  = (Scenario.after_verify,
     Throw (Error "Failed to create payment order: Invalid plan type")).
Proof.
  apply (proj2 (proj2 (createOrder_throws_iff Scenario.cfg 1700000000000
                         "abc123xyz" 1700000000000 "u1" "gold" None
                         Scenario.after_verify))).
  reflexivity.
Defined.

(** Ordering a catalogue plan and asking for its status: [createOrder]
    returns a descriptor whose id is the generated one and whose amount is
    100 times the plan's price; [getPaymentStatus] of that id then shows
    the order with that amount, status [created], creation time in whole
    seconds, and no payment.  The status of every other order id and the
    payment store are as before. *)
Theorem createOrder_then_getPaymentStatus
    cfg now_id rnd now_c uid pt ud s p :
  map_get pt plans = Some p ->
  exists s' d,
    createOrder cfg now_id rnd now_c uid pt (Some ud) s = (s', Return d) /\
    Checkout.id (CreateResponse.order d) = make_order_id now_id rnd /\
    Checkout.amount (CreateResponse.order d) = Num (Plan.price p * 100) /\
    Checkout.currency (CreateResponse.order d) = "INR" /\
    getPaymentStatus (make_order_id now_id rnd) s'
    = Some (StatusSnapshot.mk
              (OrderSnapshot.mk (make_order_id now_id rnd)
                 (Num (Plan.price p * 100)) created (now_c / 1000))
              None) /\
    (forall k, k <> make_order_id now_id rnd ->
       getPaymentStatus k s' = getPaymentStatus k s) /\
    payments s' = payments s.
Proof.
  intros Hp. unfold createOrder. rewrite (plans_get_own _ _ Hp).
  do 2 eexists. split; [reflexivity|].
  cbn [CreateResponse.order Checkout.id Checkout.amount Checkout.currency
       plan_price js_times100 payments].
  do 3 (split; [reflexivity|]).
  split; [|split; [|reflexivity]].
  - unfold getPaymentStatus. cbn [orders]. rewrite map_get_set_same. reflexivity.
  - intros k Hk. unfold getPaymentStatus. cbn [orders payments].
    rewrite map_get_set_other by congruence. reflexivity.
Qed.

Lemma createOrder_then_status_witness :
  exists s' d,
    createOrder Scenario.cfg 1700000001000 "zzz999aaa" 1700000001999
      "u2" "basic" (Some (UserDetails.mk None None None)) Scenario.after_create
    = (s', Return d) /\
    Checkout.amount (CreateResponse.order d) = Num 19900 /\
    getPaymentStatus Runs.other_order_id s'
    = Some (StatusSnapshot.mk
              (OrderSnapshot.mk Runs.other_order_id (Num 19900) created 1700000001)
              None).
Proof.
  destruct (createOrder_then_getPaymentStatus Scenario.cfg 1700000001000
              "zzz999aaa" 1700000001999 "u2" "basic"
              (UserDetails.mk None None None) Scenario.after_create
              (Plan.mk 5 199 "Basic Plan") eq_refl)
    as (s' & d & H1 & _ & H2 & _ & H3 & _).
  exists s', d. exact (conj H1 (conj H2 H3)).
Defined.

(** A plan type that is a property name of [Object.prototype]
    ([constructor], [toString], ...) passes the plan check: [createOrder]
    returns, and the order it stores and the descriptor it returns carry the
    amount [NaN]. *)
Theorem createOrder_accepts_prototype_keys cfg now_id rnd now_c uid pt ud s :
  In pt object_prototype_keys ->
  exists s' d o,
    createOrder cfg now_id rnd now_c uid pt (Some ud) s = (s', Return d) /\
    getPlanDetails pt = Some (Inherited pt) /\
    Checkout.amount (CreateResponse.order d) = NaN /\
    map_get (make_order_id now_id rnd) (orders s') = Some o /\
    Order.amount o = NaN /\
    Order.status o = created.
Proof.
  intros Hin. unfold createOrder, getPlanDetails.
  rewrite (plans_get_inherited _ Hin).
  do 3 eexists. split; [reflexivity|]. split; [reflexivity|].
  split; [reflexivity|]. cbn [orders].
  split; [apply map_get_set_same|]. split; reflexivity.
Qed.

Lemma createOrder_prototype_witness :
  exists s' d o,
    createOrder Scenario.cfg 1700000000000 "abc123xyz" 1700000000000
      "u1" "toString" (Some Scenario.details) empty_store = (s', Return d) /\
    Checkout.description (CreateResponse.order d) = "toString - undefined Questions" /\
    map_get Scenario.order_id (orders s') = Some o /\
    Order.amount o = NaN.
Proof.
  destruct (createOrder_accepts_prototype_keys Scenario.cfg 1700000000000
              "abc123xyz" 1700000000000 "u1" "toString" Scenario.details
              empty_store)
    as (s' & d & o & H1 & _ & _ & H2 & H3 & _).
  { cbn. tauto. }
  exists s', d, o.
  assert (Hd : Checkout.description (CreateResponse.order d)
               = "toString - undefined Questions").
  { apply (f_equal snd) in H1. cbn [snd] in H1.
    vm_compute in H1. injection H1 as <-. reflexivity. }
  exact (conj H1 (conj Hd (conj H2 H3))).
Defined.

(** ** Order ids *)

(** [createOrder] does not check whether the generated id is in use.  When
    it is, the stored order is replaced in its place by the new one, in
    status [created] and without payment id, whatever it was before; no
    order is added and the payments stay.  The status query for the id then
    shows no payment. *)
Theorem createOrder_replaces_on_id_collision
    cfg now_id rnd now_c uid pt ud s p old :
  map_get pt plans = Some p ->
  map_get (make_order_id now_id rnd) (orders s) = Some old ->
  exists s' d o,
    createOrder cfg now_id rnd now_c uid pt (Some ud) s = (s', Return d) /\
    map_keys (orders s') = map_keys (orders s) /\
    map_get (make_order_id now_id rnd) (orders s') = Some o /\
    Order.status o = created /\
    Order.paymentId o = None /\
    Order.userId o = uid /\
    payments s' = payments s /\
    option_map StatusSnapshot.payment
      (getPaymentStatus (make_order_id now_id rnd) s') = Some None.
Proof.
  intros Hp Hold. unfold createOrder. rewrite (plans_get_own _ _ Hp).
  do 3 eexists. split; [reflexivity|]. cbn [orders payments].
  split; [eapply map_keys_set_present; exact Hold|].
  split; [apply map_get_set_same|].
  do 4 (split; [reflexivity|]).
  unfold getPaymentStatus. cbn [orders]. rewrite map_get_set_same. reflexivity.
Qed.

Lemma createOrder_collision_witness :
  exists s' d o,
    createOrder Scenario.cfg 1700000000000 "abc123xyz" 1700000007000
      "u9" "basic" (Some Scenario.details) Scenario.after_verify
    = (s', Return d) /\
    map_get Scenario.order_id (orders s') = Some o /\
    Order.status o = created /\
    Order.userId o = "u9" /\
    payments s' = payments Scenario.after_verify.
Proof.
  assert (Hold : exists old,
    map_get (make_order_id 1700000000000 "abc123xyz") (orders Scenario.after_verify)
    = Some old) by (eexists; vm_compute; reflexivity).
  destruct Hold as [old Hold].
  destruct (createOrder_replaces_on_id_collision Scenario.cfg 1700000000000
              "abc123xyz" 1700000007000 "u9" "basic" Scenario.details
              Scenario.after_verify (Plan.mk 5 199 "Basic Plan") old eq_refl Hold)
    as (s' & d & o & H1 & _ & H2 & H3 & _ & H4 & H5 & _).
  exists s', d, o. exact (conj H1 (conj H2 (conj H3 (conj H4 H5)))).
Defined.

(** The decimal rendering of an integer holds no underscore. *)
Lemma string_of_uint_no_underscore d :
  has_underscore (NilEmpty.string_of_uint d) = false.
Proof. induction d; cbn; auto. Qed.

Lemma string_of_Z_no_underscore z : has_underscore (string_of_Z z) = false.
Proof.
  unfold string_of_Z, NilZero.string_of_int, NilZero.string_of_uint.
  destruct (Z.to_int z) as [d|d]; destruct d; cbn;
    auto using string_of_uint_no_underscore.
Qed.

Lemma string_of_Z_inj z z' : string_of_Z z = string_of_Z z' -> z = z'.
Proof.
  unfold string_of_Z. intros H.
  assert (Hnz : forall x, Z.to_int x <> Decimal.Pos Decimal.Nil
                          /\ Z.to_int x <> Decimal.Neg Decimal.Nil).
  { intros [|q|q]; cbn; split; try discriminate;
      intros E; inversion E as [E']; now apply DecimalPos.Unsigned.to_uint_nonnil in E'. }
  pose proof (NilZero.isi (Z.to_int z) (proj1 (Hnz z)) (proj2 (Hnz z))) as E1.
  pose proof (NilZero.isi (Z.to_int z') (proj1 (Hnz z')) (proj2 (Hnz z'))) as E2.
  rewrite H in E1. rewrite E1 in E2. inversion E2 as [E].
  rewrite <- (DecimalZ.of_to z), <- (DecimalZ.of_to z'). now rewrite E.
Qed.

(** Two texts without underscore, each followed by an underscore and a
    rest: equal wholes have equal parts. *)
Lemma split_at_underscore a a' r r' :
  has_underscore a = false -> has_underscore a' = false ->
  a +:+ "_" +:+ r = a' +:+ "_" +:+ r' -> a = a' /\ r = r'.
Proof.
  revert a'. induction a as [|c a IH]; intros [|c' a'] Ha Ha' H; cbn in *.
  - inversion H. auto.
  - inversion H; subst c'. cbn in Ha'. discriminate.
  - inversion H; subst c. cbn in Ha. discriminate.
  - inversion H; subst c'.
    apply Bool.orb_false_iff in Ha as [_ Ha], Ha' as [_ Ha'].
    destruct (IH a' Ha Ha' H2) as [-> ->]. auto.
Qed.

(** The generated id determines the clock reading and the random suffix it
    was built from: different readings never give the same id.  With
    the two readings of two [createOrder] calls different, the second call
    adds its order and leaves the first one stored as it was. *)
Theorem make_order_id_injective :
  (forall now rnd now' rnd',
     make_order_id now rnd = make_order_id now' rnd' -> now = now' /\ rnd = rnd') /\
  (forall cfg now rnd now' rnd' now_c uid pt ud s p o,
     (now, rnd) <> (now', rnd') ->
     map_get pt plans = Some p ->
     map_get (make_order_id now rnd) (orders s) = Some o ->
     map_get (make_order_id now' rnd') (orders s) = None ->
     map_get (make_order_id now rnd)
       (orders (fst (createOrder cfg now' rnd' now_c uid pt (Some ud) s)))
     = Some o /\
     map_keys (orders (fst (createOrder cfg now' rnd' now_c uid pt (Some ud) s)))
     = map_keys (orders s) ++ [make_order_id now' rnd']).
Proof.
  assert (Hinj : forall now rnd now' rnd',
            make_order_id now rnd = make_order_id now' rnd' ->
            now = now' /\ rnd = rnd').
  { intros now rnd now' rnd' H. unfold make_order_id in H.
    cbn [String.append] in H. inversion H as [H'].
    apply split_at_underscore in H' as [Hn ->];
      auto using string_of_Z_no_underscore.
    split; [now apply string_of_Z_inj | reflexivity]. }
  split; [exact Hinj|].
  intros cfg now rnd now' rnd' now_c uid pt ud s p o Hne Hp Hget Hnone.
  unfold createOrder. rewrite (plans_get_own _ _ Hp). cbn [fst orders].
  split.
  - rewrite map_get_set_other; [exact Hget|].
    intros E. apply Hinj in E as [-> ->]. now apply Hne.
  - now apply map_keys_set_absent.
Qed.

Lemma make_order_id_witness :
  map_keys (orders Runs.two_orders) = [Scenario.order_id; Runs.other_order_id].
Proof.
  refine (proj2 (proj2 make_order_id_injective
                   Scenario.cfg 1700000000000 "abc123xyz"
                   1700000001000 "zzz999aaa" 1700000001000 "u2" "basic"
                   (UserDetails.mk None None None) Scenario.after_create
                   (Plan.mk 5 199 "Basic Plan") _ _ eq_refl after_create_order _)).
  - intros E. inversion E.
  - vm_compute. reflexivity.
Defined.

(** ** verifyPayment: what else it touches, and payment ids *)

(** An accepted confirmation changes one order and one payment key and
    nothing else: every other order and every other payment is as before,
    and no order is added or moved. *)
Theorem verifyPayment_frame cfg t1 t2 pd s s' r :
  verifyPayment cfg t1 t2 pd s = (s', Return r) ->
  map_keys (orders s') = map_keys (orders s) /\
  (forall k, k <> Payment.orderId (VerifyResponse.payment r) ->
     map_get k (orders s') = map_get k (orders s)) /\
  (forall k, k <> Payment.id (VerifyResponse.payment r) ->
     map_get k (payments s') = map_get k (payments s)) /\
  VerifyResponse.success r = true /\
  Payment.status (VerifyResponse.payment r) = "captured" /\
  Payment.method (VerifyResponse.payment r) = "card".
Proof.
  intros H.
  destruct (verifyPayment_return_inv _ _ _ _ _ _ _ H)
    as (oid & pid & sg & o & _ & _ & _ & Hget & _ & -> & ->).
  cbn [orders payments VerifyResponse.payment VerifyResponse.success
       payment_record Payment.orderId Payment.id Payment.status Payment.method].
  split; [eapply map_keys_set_present; exact Hget|].
  split; [intros k Hk; apply map_get_set_other; congruence|].
  split; [intros k Hk; apply map_get_set_other; congruence|].
  repeat split.
Qed.

Lemma verifyPayment_frame_witness :
  map_keys (orders (fst (verifyPayment Scenario.cfg 1700000003000 1700000003000
                           Runs.reused_confirmation Runs.two_orders)))
  = map_keys (orders Runs.two_orders).
Proof.
  assert (Hrun : exists s' r,
    verifyPayment Scenario.cfg 1700000003000 1700000003000
      Runs.reused_confirmation Runs.two_orders = (s', Return r))
    by (do 2 eexists; vm_compute; reflexivity).
  destruct Hrun as (s' & r & Hrun).
  rewrite Hrun.
  exact (proj1 (verifyPayment_frame _ _ _ _ _ _ _ Hrun)).
Defined.

(** A paid order is not closed to further confirmations.  A second validly
    signed confirmation for the same order with another payment id, new to
    the store, is accepted: a second Payment naming the order is added, the
    first one stays, and the order now points to the second. *)
Theorem verifyPayment_second_payment_id
    cfg t1 t2 pd s oid pid1 pid2 sg o p1 :
  map_get oid (orders s) = Some o ->
  Order.paymentId o = Some pid1 ->
  map_get pid1 (payments s) = Some p1 ->
  Payment.orderId p1 = oid ->
  js_truthy (PaymentData.razorpay_order_id pd) = Some oid ->
  js_truthy (PaymentData.razorpay_payment_id pd) = Some pid2 ->
  js_truthy (PaymentData.razorpay_signature pd) = Some sg ->
  valid_signature cfg oid pid2 sg ->
  map_get pid2 (payments s) = None ->
  exists s' r,
    verifyPayment cfg t1 t2 pd s = (s', Return r) /\
    map_get pid1 (payments s') = Some p1 /\
    map_get pid2 (payments s') = Some (VerifyResponse.payment r) /\
    Payment.orderId (VerifyResponse.payment r) = oid /\
    Payment.orderId p1 = oid /\
    pid1 <> pid2 /\
    map_keys (payments s') = map_keys (payments s) ++ [pid2] /\
    (exists o', map_get oid (orders s') = Some o' /\
                Order.paymentId o' = Some pid2 /\ Order.status o' = paid).
Proof.
  intros Hget Hpid Hp1 Hback Ho Hp Hs Hv Hnew.
  assert (Hne : pid1 <> pid2) by congruence.
  do 2 eexists. split; [eapply verifyPayment_success; eassumption|].
  cbn [orders payments VerifyResponse.payment payment_record Payment.orderId].
  split; [rewrite map_get_set_other by congruence; exact Hp1|].
  split; [apply map_get_set_same|].
  split; [reflexivity|]. split; [exact Hback|]. split; [exact Hne|].
  split; [now apply map_keys_set_absent|].
  eexists. split; [apply map_get_set_same|]. split; reflexivity.
Qed.

Lemma verifyPayment_second_payment_witness :
  exists s' r,
    verifyPayment Scenario.cfg 1700000004000 1700000004000
      Runs.second_confirmation Scenario.after_verify = (s', Return r) /\
    map_keys (payments s') = [Scenario.payment_id; Runs.second_payment_id].
Proof.
  assert (Ho : exists o p1,
    map_get Scenario.order_id (orders Scenario.after_verify) = Some o /\
    Order.paymentId o = Some Scenario.payment_id /\
    map_get Scenario.payment_id (payments Scenario.after_verify) = Some p1 /\
    Payment.orderId p1 = Scenario.order_id).
  { do 2 eexists. split; [vm_compute; reflexivity|].
    split; [reflexivity|]. split; [vm_compute; reflexivity | reflexivity]. }
  destruct Ho as (o & p1 & H1 & H2 & H3 & H4).
  destruct (verifyPayment_second_payment_id Scenario.cfg
              1700000004000 1700000004000 Runs.second_confirmation
              Scenario.after_verify Scenario.order_id Scenario.payment_id
              Runs.second_payment_id _ o p1 H1 H2 H3 H4 eq_refl eq_refl
              (js_truthy_hmac _ _) eq_refl)
    as (s' & r & Hv & _ & _ & _ & _ & _ & Hk & _).
  { vm_compute. reflexivity. }
  exists s', r. split; [exact Hv|]. rewrite Hk.
  assert (Hkeys : map_keys (payments Scenario.after_verify) = [Scenario.payment_id])
    by (vm_compute; reflexivity).
  rewrite Hkeys. reflexivity.
Defined.

(** Payment ids are not checked for reuse.  When a payment id under which
    a Payment of one order is stored is confirmed, validly signed, for
    another order, the stored Payment is overwritten by one naming the
    other order.  Both orders then point to that one record, and the status
    of the first order shows the Payment made for the second. *)
Theorem verifyPayment_payment_id_reuse
    cfg t1 t2 pd s oid1 oid2 pid sg o1 o2 p1 :
  oid1 <> oid2 ->
  map_get oid1 (orders s) = Some o1 ->
  Order.paymentId o1 = Some pid ->
  map_get pid (payments s) = Some p1 ->
  map_get oid2 (orders s) = Some o2 ->
  js_truthy (PaymentData.razorpay_order_id pd) = Some oid2 ->
  js_truthy (PaymentData.razorpay_payment_id pd) = Some pid ->
  js_truthy (PaymentData.razorpay_signature pd) = Some sg ->
  valid_signature cfg oid2 pid sg ->
  exists s' r snap,
    verifyPayment cfg t1 t2 pd s = (s', Return r) /\
    map_keys (payments s') = map_keys (payments s) /\
    map_get pid (payments s') = Some (VerifyResponse.payment r) /\
    Payment.orderId (VerifyResponse.payment r) = oid2 /\
    Payment.userId (VerifyResponse.payment r) = Order.userId o2 /\
    map_get oid1 (orders s') = Some o1 /\
    getPaymentStatus oid1 s' = Some snap /\
    option_map PaymentSnapshot.verifiedAt (StatusSnapshot.payment snap) = Some t2.
Proof.
  intros Hne Hget1 Hpid Hp1 Hget2 Ho Hp Hs Hv.
  pose proof (js_truthy_inv _ _ Hp) as [_ Hpne].
  do 3 eexists. split; [eapply verifyPayment_success; eassumption|].
  cbn [orders payments VerifyResponse.payment payment_record Payment.orderId
       Payment.userId].
  split; [eapply map_keys_set_present; exact Hp1|].
  split; [apply map_get_set_same|].
  do 2 (split; [reflexivity|]).
  split; [rewrite map_get_set_other by congruence; exact Hget1|].
  unfold getPaymentStatus. cbn [orders payments].
  rewrite map_get_set_other by congruence. rewrite Hget1, Hpid.
  rewrite (js_truthy_some _ Hpne), map_get_set_same.
  split; reflexivity.
Qed.

Lemma verifyPayment_reuse_witness :
  exists s' r snap,
    verifyPayment Scenario.cfg 1700000003000 1700000003500
      Runs.reused_confirmation
      (fst (verifyPayment Scenario.cfg 1700000002000 1700000002000
              Scenario.confirmation Runs.two_orders))
    = (s', Return r) /\
    Payment.orderId (VerifyResponse.payment r) = Runs.other_order_id /\
    getPaymentStatus Scenario.order_id s' = Some snap /\
    option_map PaymentSnapshot.verifiedAt (StatusSnapshot.payment snap)
    = Some 1700000003500.
Proof.
  assert (Hst : exists o1 p1 o2,
    map_get Scenario.order_id
      (orders (fst (verifyPayment Scenario.cfg 1700000002000 1700000002000
                      Scenario.confirmation Runs.two_orders))) = Some o1 /\
    Order.paymentId o1 = Some Scenario.payment_id /\
    map_get Scenario.payment_id
      (payments (fst (verifyPayment Scenario.cfg 1700000002000 1700000002000
                        Scenario.confirmation Runs.two_orders))) = Some p1 /\
    map_get Runs.other_order_id
      (orders (fst (verifyPayment Scenario.cfg 1700000002000 1700000002000
                      Scenario.confirmation Runs.two_orders))) = Some o2).
  { do 3 eexists. split; [vm_compute; reflexivity|].
    split; [reflexivity|]. split; vm_compute; reflexivity. }
  destruct Hst as (o1 & p1 & o2 & H1 & H2 & H3 & H4).
  assert (Hne : Scenario.order_id <> Runs.other_order_id)
    by (vm_compute; discriminate).
  assert (Hoid : js_truthy (PaymentData.razorpay_order_id Runs.reused_confirmation)
                 = Some Runs.other_order_id)
    by (vm_compute; reflexivity).
  destruct (verifyPayment_payment_id_reuse Scenario.cfg
              1700000003000 1700000003500 Runs.reused_confirmation _
              Scenario.order_id Runs.other_order_id Scenario.payment_id _
              o1 o2 p1 Hne H1 H2 H3 H4 Hoid eq_refl (js_truthy_hmac _ _) eq_refl)
    as (s' & r & snap & Hv & _ & _ & Hb & _ & _ & Hs & Hva).
  exists s', r, snap. exact (conj Hv (conj Hb (conj Hs Hva))).
Defined.

(** ** handlePaymentFailure: unknown orders and missing error data *)

(** For an order id that is not stored, [handlePaymentFailure] changes
    nothing and still returns its failure response, with the caller's
    error data in it.  Called without error data it throws a [TypeError],
    but only after the order, when stored, has been marked [failed]: the
    store the rejected call leaves behind holds the update. *)
Theorem handlePaymentFailure_edges :
  (forall now oid e s,
     map_get oid (orders s) = None ->
     handlePaymentFailure now oid (Some e) s
     = (s, Return (FailureResponse.mk false "Payment failed. Please try again." e))) /\
  (forall now oid s,
     map_get oid (orders s) = None ->
     exists msg, handlePaymentFailure now oid None s = (s, Throw (TypeError msg))) /\
  (forall now oid s o,
     map_get oid (orders s) = Some o ->
     exists s' msg,
       handlePaymentFailure now oid None s = (s', Throw (TypeError msg)) /\
       map_get oid (orders s') = Some (Order.mark_failed None now o) /\
       Order.status (Order.mark_failed None now o) = failed).
Proof.
  split; [|split].
  - intros now oid e s H. unfold handlePaymentFailure. now rewrite H.
  - intros now oid s H. unfold handlePaymentFailure. rewrite H. eauto.
  - intros now oid s o H. unfold handlePaymentFailure. rewrite H.
    do 2 eexists. split; [reflexivity|]. cbn [orders].
    split; [apply map_get_set_same | reflexivity].
Qed.

Lemma handlePaymentFailure_edges_witness :
  handlePaymentFailure 1700000002000 "order_unknown" (Some Scenario.failure)
    Scenario.after_verify
  = (Scenario.after_verify,
     Return (FailureResponse.mk false "Payment failed. Please try again."
               Scenario.failure)) /\
  (exists s' msg,
     handlePaymentFailure 1700000002000 Scenario.order_id None Scenario.after_create
     = (s', Throw (TypeError msg)) /\
     option_map Order.status (map_get Scenario.order_id (orders s')) = Some failed).
Proof.
  split.
  - apply (proj1 handlePaymentFailure_edges). vm_compute. reflexivity.
  - destruct (proj2 (proj2 handlePaymentFailure_edges) 1700000002000
                Scenario.order_id Scenario.after_create _ after_create_order)
      as (s' & msg & H1 & H2 & _).
    exists s', msg. split; [exact H1|]. now rewrite H2.
Defined.

(** ** What calls do to the two stores *)

Lemma exec_payments cfg c s :
  payments (exec cfg c s) = payments s \/
  exists t1 t2 pd r,
    c = CallVerifyPayment t1 t2 pd /\
    verifyPayment cfg t1 t2 pd s = (exec cfg c s, Return r) /\
    payments (exec cfg c s)
    = map_set (Payment.id (VerifyResponse.payment r)) (VerifyResponse.payment r)
        (payments s).
Proof.
  destruct c as [now_id rnd now_c uid pt ud | t1 t2 pd | now oid err | ev];
    cbn [exec].
  - left. unfold createOrder.
    destruct (plans_get pt); [|reflexivity]. now destruct ud.
  - destruct (verifyPayment cfg t1 t2 pd s) as [s' [r|e]] eqn:E; cbn [fst].
    + right. exists t1, t2, pd, r. split; [reflexivity|]. split; [exact E|].
      destruct (verifyPayment_return_inv _ _ _ _ _ _ _ E)
        as (oid & pid & sg & o & _ & _ & _ & _ & _ & -> & ->).
      reflexivity.
    + left. now rewrite (verifyPayment_throw_unchanged _ _ _ _ _ _ _ E).
  - left. unfold handlePaymentFailure.
    destruct (map_get oid (orders s)); now destruct err.
  - left. now rewrite processWebhook_store.
Qed.

Lemma map_keys_set_grows {V : Type} (k : string) (v : V) (m : JSMap V) :
  exists l, map_keys (map_set k v m) = map_keys m ++ l /\ (List.length l <= 1)%nat.
Proof.
  destruct (map_get k m) as [v0|] eqn:E.
  - exists []. rewrite (map_keys_set_present _ _ _ _ E), app_nil_r. cbn. auto.
  - exists [k]. rewrite (map_keys_set_absent _ _ _ E). cbn. auto.
Qed.

(** No call deletes or moves a record: after any call, returned or thrown,
    the order keys and the payment keys are the old ones in the old order,
    followed by at most one new key each. *)
Theorem calls_never_delete cfg c s :
  exists new_orders new_payments,
    map_keys (orders (exec cfg c s)) = map_keys (orders s) ++ new_orders /\
    map_keys (payments (exec cfg c s)) = map_keys (payments s) ++ new_payments /\
    (List.length new_orders <= 1)%nat /\
    (List.length new_payments <= 1)%nat.
Proof.
  assert (Ho : exists l, map_keys (orders (exec cfg c s)) = map_keys (orders s) ++ l
                         /\ (List.length l <= 1)%nat).
  { destruct (exec_orders cfg c s) as [->|(k & v & -> & _)].
    - exists []. rewrite app_nil_r. cbn. auto.
    - apply map_keys_set_grows. }
  assert (Hp : exists l, map_keys (payments (exec cfg c s))
                         = map_keys (payments s) ++ l
                         /\ (List.length l <= 1)%nat).
  { destruct (exec_payments cfg c s) as [->|(t1 & t2 & pd & r & _ & _ & ->)].
    - exists []. rewrite app_nil_r. cbn. auto.
    - apply map_keys_set_grows. }
  destruct Ho as (lo & Ho & Hlo), Hp as (lp & Hp & Hlp).
  exists lo, lp. auto.
Qed.

(** Only an accepted confirmation changes a payment history: after any
    other call, and after a rejected confirmation, every user's
    [getUserPayments] is what it was.  In particular a failure callback
    for a paid order leaves its payment in the history. *)
Theorem history_changes_only_on_verification cfg c s :
  (forall t1 t2 pd r,
     c = CallVerifyPayment t1 t2 pd ->
     snd (verifyPayment cfg t1 t2 pd s) <> Return r) ->
  forall userId, getUserPayments userId (exec cfg c s) = getUserPayments userId s.
Proof.
  intros Hnot userId.
  destruct (exec_payments cfg c s) as [E|(t1 & t2 & pd & r & -> & Hv & _)].
  - unfold getUserPayments, user_payments. now rewrite E.
  - exfalso. apply (Hnot t1 t2 pd r eq_refl). now rewrite Hv.
Qed.

Lemma history_changes_witness :
  getUserPayments "u1"
    (exec Scenario.cfg
       (CallHandlePaymentFailure 1700000003000 Scenario.order_id
          (Some Scenario.failure))
       Scenario.after_verify)
  = getUserPayments "u1" Scenario.after_verify.
Proof.
  apply (history_changes_only_on_verification Scenario.cfg
           (CallHandlePaymentFailure 1700000003000 Scenario.order_id
              (Some Scenario.failure))
           Scenario.after_verify).
  intros t1 t2 pd r E. discriminate E.
Defined.

(** ** The shape of the records in a reachable store *)

Lemma order_ok_mono s s' k o :
  (forall pid p, map_get pid (payments s) = Some p ->
                 exists p', map_get pid (payments s') = Some p') ->
  order_ok s k o -> order_ok s' k o.
Proof.
  intros Hmono (H1 & H2 & H3 & H4 & H5 & H6 & H7 & H8).
  repeat (split; [assumption|]).
  intros pid Hpid. destruct (H8 pid Hpid) as [p Hp]. eauto.
Qed.

Lemma payment_ok_mono s s' k p :
  (forall oid o, map_get oid (orders s) = Some o ->
                 exists o', map_get oid (orders s') = Some o') ->
  payment_ok s k p -> payment_ok s' k p.
Proof.
  intros Hmono (H1 & H2 & H3 & H4 & o & Ho).
  repeat (split; [assumption|]). eauto.
Qed.

Lemma records_ok_createOrder cfg now_id rnd now_c uid pt ud s :
  records_ok s -> records_ok (fst (createOrder cfg now_id rnd now_c uid pt ud s)).
Proof.
  intros (I1 & I2 & I3 & I4). unfold createOrder.
  destruct (plans_get pt) as [plan|] eqn:Eplan;
    [|exact (conj I1 (conj I2 (conj I3 I4)))].
  destruct ud as [ud|]; [|exact (conj I1 (conj I2 (conj I3 I4)))].
  cbn [fst]. unfold records_ok. cbn [orders payments].
  split; [now apply map_ok_set|]. split; [exact I2|]. split.
  - intros k o Hget.
    destruct (String.eqb_spec (make_order_id now_id rnd) k) as [<-|Hne].
    + rewrite map_get_set_same in Hget. inversion Hget; subst o.
      unfold order_ok. cbn.
      repeat (split; [reflexivity || assumption|]).
      split; [intros _; auto|]. split; [discriminate | discriminate].
    + rewrite map_get_set_other in Hget by exact Hne.
      apply (order_ok_mono s); [cbn; eauto | auto].
  - intros k p Hget. apply (payment_ok_mono s); [|auto].
    cbn [orders]. intros oid o Ho. eapply map_get_set_exists; exact Ho.
Qed.

Lemma records_ok_verifyPayment cfg t1 t2 pd s :
  records_ok s -> records_ok (fst (verifyPayment cfg t1 t2 pd s)).
Proof.
  intros Hinv.
  destruct (verifyPayment cfg t1 t2 pd s) as [s' [r|e]] eqn:E; cbn [fst];
    [|now rewrite (verifyPayment_throw_unchanged _ _ _ _ _ _ _ E)].
  destruct (verifyPayment_return_inv _ _ _ _ _ _ _ E)
    as (oid & pid & sg & o0 & _ & _ & _ & Hget0 & _ & -> & _).
  destruct Hinv as (I1 & I2 & I3 & I4).
  pose proof (I3 _ _ Hget0) as (O1 & O2 & O3 & O4 & O5 & _).
  assert (Hpm : forall k p, map_get k (payments s) = Some p ->
            exists p', map_get k (map_set pid (payment_record pid oid o0 t1 t2)
                                    (payments s)) = Some p')
    by (intros k p Hp; eapply map_get_set_exists; exact Hp).
  assert (Hom : forall k o, map_get k (orders s) = Some o ->
            exists o', map_get k (map_set oid (Order.mark_paid pid o0)
                                    (orders s)) = Some o')
    by (intros k o Ho; eapply map_get_set_exists; exact Ho).
  unfold records_ok. cbn [orders payments].
  split; [now apply map_ok_set|]. split; [now apply map_ok_set|]. split.
  - intros k o Hget.
    destruct (String.eqb_spec oid k) as [<-|Hne].
    + rewrite map_get_set_same in Hget. inversion Hget; subst o.
      unfold order_ok. cbn.
      repeat (split; [assumption|]).
      split; [discriminate|]. split; [eauto|].
      intros pid' Hpid'. inversion Hpid'; subst pid'.
      rewrite map_get_set_same. eauto.
    + rewrite map_get_set_other in Hget by exact Hne.
      apply (order_ok_mono s); [exact Hpm | auto].
  - intros k p Hget.
    destruct (String.eqb_spec pid k) as [<-|Hne].
    + rewrite map_get_set_same in Hget. inversion Hget; subst p.
      unfold payment_ok. cbn.
      repeat (split; [reflexivity || assumption|]).
      rewrite map_get_set_same. eauto.
    + rewrite map_get_set_other in Hget by exact Hne.
      apply (payment_ok_mono s); [exact Hom | auto].
Qed.

Lemma records_ok_handlePaymentFailure now oid err s :
  records_ok s -> records_ok (fst (handlePaymentFailure now oid err s)).
Proof.
  intros Hinv.
  destruct (map_get oid (orders s)) as [o0|] eqn:Hget0;
    [|now rewrite (handlePaymentFailure_unknown _ _ _ _ Hget0)].
  rewrite (handlePaymentFailure_store _ _ _ _ _ Hget0).
  destruct Hinv as (I1 & I2 & I3 & I4).
  pose proof (I3 _ _ Hget0) as (O1 & O2 & O3 & O4 & O5 & _ & _ & O8).
  unfold records_ok. cbn [orders payments].
  split; [now apply map_ok_set|]. split; [exact I2|]. split.
  - intros k o Hget.
    destruct (String.eqb_spec oid k) as [<-|Hne].
    + rewrite map_get_set_same in Hget. inversion Hget; subst o.
      unfold order_ok. cbn.
      repeat (split; [assumption|]).
      split; [discriminate|]. split; [discriminate | exact O8].
    + rewrite map_get_set_other in Hget by exact Hne.
      apply (order_ok_mono s); [cbn; eauto | auto].
  - intros k p Hget. apply (payment_ok_mono s); [|auto].
    cbn [orders]. intros k' o Ho. eapply map_get_set_exists; exact Ho.
Qed.

Lemma records_ok_along_runs cfg s : reachable cfg s -> records_ok s.
Proof.
  induction 1 as [|c s Hr IH].
  - repeat split; try discriminate; constructor.
  - destruct c; cbn [exec].
    + now apply records_ok_createOrder.
    + now apply records_ok_verifyPayment.
    + now apply records_ok_handlePaymentFailure.
    + now rewrite processWebhook_store.
Qed.

(** Every store the service can reach holds well-formed records: each
    order is stored under its own id, in INR, with the plan its plan type
    names and 100 times that plan's price as amount; a [created] order has
    no payment id and no failure detail, a [paid] order has a payment id,
    and a payment id on an order is always the key of a stored payment;
    each payment is stored under its own id, is [captured] by [card] in
    INR, and names an order that is stored; no key occurs twice. *)
Theorem reachable_records_ok cfg s : reachable cfg s -> records_ok s.
Proof. apply records_ok_along_runs. Qed.

Lemma reachable_records_witness : records_ok Scenario.after_create.
Proof.
  exact (reachable_records_ok Scenario.cfg Scenario.after_create
           reachable_after_create).
Defined.

(** ** The shape of an accepted signature *)

Lemma hex_digit_lower d : is_lower_hex (Crypto.hex_digit d) = true.
Proof.
  unfold Crypto.hex_digit.
  generalize (Z.to_nat d). intros n.
  do 17 (destruct n as [|n]; [reflexivity|]). destruct n; reflexivity.
Qed.

Lemma hex_shape bs :
  String.length (Crypto.hex bs) = (2 * List.length bs)%nat /\
  string_forallb is_lower_hex (Crypto.hex bs) = true.
Proof.
  induction bs as [|b bs [IHl IHf]]; [split; reflexivity|].
  cbn [Crypto.hex fold_right Crypto.hex_byte String.length string_forallb
       List.length].
  fold (Crypto.hex bs). rewrite IHl, IHf, !hex_digit_lower. split; [lia | reflexivity].
Qed.

Lemma hmac_sha256_hex_shape key msg :
  digest_shaped (Crypto.hmac_sha256_hex key msg).
Proof.
  unfold digest_shaped, Crypto.hmac_sha256_hex.
  destruct (hex_shape (Crypto.digest_bytes
                         (Crypto.hmac_sha256_state (Crypto.bytes_of_string key)
                            (Crypto.bytes_of_string msg)))) as [Hl Hf].
  split; [rewrite Hl; reflexivity | exact Hf].
Qed.

(** Only a signature of 64 lowercase hexadecimal characters is ever
    accepted, by [verifyPayment] and by [validateWebhook] alike: anything
    shorter, longer, in upper case or otherwise encoded is rejected,
    whatever the secret. *)
Theorem accepted_signatures_are_digest_shaped :
  (forall cfg t1 t2 pd s s' r,
     verifyPayment cfg t1 t2 pd s = (s', Return r) ->
     exists sg, PaymentData.razorpay_signature pd = Some sg /\ digest_shaped sg) /\
  (forall cfg body sg,
     validateWebhook cfg body sg = true -> digest_shaped sg).
Proof.
  split.
  - intros cfg t1 t2 pd s s' r H.
    destruct (verifyPayment_return_inv _ _ _ _ _ _ _ H)
      as (oid & pid & sg & o & _ & _ & Hs & _ & Hv & _).
    apply js_truthy_inv in Hs as [Hs _]. exists sg. split; [exact Hs|].
    rewrite Hv. apply hmac_sha256_hex_shape.
  - intros cfg body sg H. apply validateWebhook_spec in H. subst sg.
    apply hmac_sha256_hex_shape.
Qed.

Lemma accepted_signatures_witness :
  digest_shaped Scenario.signature /\
  validateWebhook Scenario.cfg "{}"
    "945DB24B4915C8DD5F9507AD223C87BBF0423B0F55839271AFD1B2DE4195AEBD" = false.
Proof.
  split.
  - destruct (proj1 accepted_signatures_are_digest_shaped Scenario.cfg
                1700000001000 1700000001000 Scenario.confirmation
                Scenario.after_create Scenario.after_verify
                (VerifyResponse.mk true
                   (payment_record Scenario.payment_id Scenario.order_id
                      (Order.mk Scenario.order_id "order" (Num 29900) "INR" created 0
                         1700000000 (Notes.mk "u1" "standard" "Asha" "9999999999")
                         "u1" "standard" Scenario.details
                         (OwnPlan (Plan.mk 10 299 "Standard Plan")) None None None)
                      1700000001000 1700000001000)
                   (Order.mark_paid Scenario.payment_id
                      (Order.mk Scenario.order_id "order" (Num 29900) "INR" created 0
                         1700000000 (Notes.mk "u1" "standard" "Asha" "9999999999")
                         "u1" "standard" Scenario.details
                         (OwnPlan (Plan.mk 10 299 "Standard Plan")) None None None))))
      as (sg & Hs & Hd); [vm_compute; reflexivity|].
    cbn in Hs. inversion Hs; subst sg. exact Hd.
  - destruct (validateWebhook Scenario.cfg "{}"
                "945DB24B4915C8DD5F9507AD223C87BBF0423B0F55839271AFD1B2DE4195AEBD")
      eqn:E; [|reflexivity].
    apply (proj2 accepted_signatures_are_digest_shaped) in E.
    destruct E as [_ E]. vm_compute in E. discriminate E.
Defined.

(** ** What the status query can show *)

Lemma own_plan_listed pt p :
  plans_get pt = Some (OwnPlan p) ->
  exists e, In e getAllPlans /\ PlanListing.price e = Plan.price p.
Proof.
  unfold plans_get. destruct (map_get pt plans) as [p'|] eqn:E.
  - intros H. inversion H; subst p'. apply map_get_In in E.
    exists (PlanListing.mk pt (Plan.questions p) (Plan.price p) (Plan.name p)).
    split; [|reflexivity]. unfold getAllPlans.
    change (PlanListing.mk pt (Plan.questions p) (Plan.price p) (Plan.name p))
      with ((fun entry : string * Plan.t =>
               PlanListing.mk (fst entry) (Plan.questions (snd entry))
                 (Plan.price (snd entry)) (Plan.name (snd entry))) (pt, p)).
    now apply in_map.
  - destruct (existsb _ _); discriminate.
Qed.

(** In every store the service can reach, [getPaymentStatus] of a stored
    order shows the id asked for; an amount that is 100 times the price of
    a plan [getAllPlans] lists, or [NaN]; no payment when the status is
    [created]; and, when the status is [paid], a payment that is
    [captured] by [card]. *)
Theorem getPaymentStatus_in_reachable_store cfg s oid snap :
  reachable cfg s ->
  getPaymentStatus oid s = Some snap ->
  OrderSnapshot.id (StatusSnapshot.order snap) = oid /\
  (OrderSnapshot.amount (StatusSnapshot.order snap) = NaN \/
   exists e, In e getAllPlans /\
     OrderSnapshot.amount (StatusSnapshot.order snap)
     = Num (PlanListing.price e * 100)) /\
  (OrderSnapshot.status (StatusSnapshot.order snap) = created ->
   StatusSnapshot.payment snap = None) /\
  (OrderSnapshot.status (StatusSnapshot.order snap) = paid ->
   exists ps, StatusSnapshot.payment snap = Some ps /\
     PaymentSnapshot.status ps = "captured" /\
     PaymentSnapshot.method ps = "card").
Proof.
  intros Hr Hsnap.
  pose proof (reachable_store_inv cfg s Hr) as (_ & _ & J3 & _).
  destruct (records_ok_along_runs cfg s Hr) as (_ & _ & I3 & I4).
  unfold getPaymentStatus in Hsnap.
  destruct (map_get oid (orders s)) as [o|] eqn:Hget; [|discriminate].
  destruct (I3 _ _ Hget) as (O1 & _ & _ & O4 & O5 & O6 & O7 & O8).
  inversion Hsnap; subst snap. clear Hsnap.
  cbn [StatusSnapshot.order StatusSnapshot.payment OrderSnapshot.id
       OrderSnapshot.amount OrderSnapshot.status].
  split; [exact O1|]. split; [|split].
  - rewrite O5. destruct (Order.plan o) as [p|key] eqn:Eplan.
    + right. destruct (own_plan_listed _ _ O4) as (e & He & Hprice).
      exists e. split; [exact He|]. cbn. now rewrite Hprice.
    + now left.
  - intros Hst. destruct (O6 Hst) as (-> & _). reflexivity.
  - intros Hst. destruct (O7 Hst) as (pid & Hpid).
    destruct (O8 _ Hpid) as (p & Hp).
    rewrite Hpid, (js_truthy_some pid (J3 _ _ _ Hget Hpid)), Hp.
    destruct (I4 _ _ Hp) as (_ & P2 & P3 & _).
    eexists. split; [reflexivity|]. cbn. auto.
Qed.

Lemma getPaymentStatus_reachable_witness :
  exists snap,
    getPaymentStatus Scenario.order_id Scenario.after_create = Some snap /\
    StatusSnapshot.payment snap = None.
Proof.
  assert (Hs : exists snap,
    getPaymentStatus Scenario.order_id Scenario.after_create = Some snap /\
    OrderSnapshot.status (StatusSnapshot.order snap) = created)
    by (eexists; split; [vm_compute; reflexivity | reflexivity]).
  destruct Hs as (snap & Hs & Hc).
  exists snap. split; [exact Hs|].
  exact (proj1 (proj2 (proj2 (getPaymentStatus_in_reachable_store Scenario.cfg
                                Scenario.after_create Scenario.order_id snap
                                reachable_after_create Hs))) Hc).
Defined.

(* ===================================================================== *)
(** * Replay, history and the two views of an amount *)

(** ** More on reachable stores *)

Lemma map_set_same_value {V : Type} (k : string) (v : V) (m : JSMap V) :
  map_get k m = Some v -> map_set k v m = m.
Proof.
  induction m as [|[k0 v0] m IH]; cbn; [discriminate|].
  destruct (String.eqb_spec k0 k) as [->|Hk0]; intros H.
  - now inversion H.
  - now rewrite IH.
Qed.

(** Every order key is a generated id. *)
Lemma reachable_order_keys cfg s :
  reachable cfg s ->
  forall k o, map_get k (orders s) = Some o ->
              exists now rnd, k = make_order_id now rnd.
Proof.
  induction 1 as [|c s Hr IH]; intros k o Hget; [discriminate|].
  destruct c as [now_id rnd now_c uid pt ud | t1 t2 pd | now oid err | ev];
    cbn [exec] in Hget.
  - unfold createOrder in Hget.
    destruct (plans_get pt); [|eauto]. destruct ud; [|eauto].
    cbn [fst orders] in Hget.
    destruct (String.eqb_spec (make_order_id now_id rnd) k) as [<-|Hne]; [eauto|].
    rewrite map_get_set_other in Hget by exact Hne. eauto.
  - destruct (verifyPayment cfg t1 t2 pd s) as [s' [r|e]] eqn:E; cbn [fst] in Hget.
    + destruct (verifyPayment_return_inv _ _ _ _ _ _ _ E)
        as (oid & pid & sg & o0 & _ & _ & _ & Hget0 & _ & -> & _).
      cbn [orders] in Hget.
      destruct (String.eqb_spec oid k) as [<-|Hne]; [eauto|].
      rewrite map_get_set_other in Hget by exact Hne. eauto.
    + rewrite (verifyPayment_throw_unchanged _ _ _ _ _ _ _ E) in Hget. eauto.
  - destruct (map_get oid (orders s)) as [o0|] eqn:Hget0.
    + rewrite (handlePaymentFailure_store _ _ _ _ _ Hget0) in Hget.
      cbn [orders] in Hget.
      destruct (String.eqb_spec oid k) as [<-|Hne]; [eauto|].
      rewrite map_get_set_other in Hget by exact Hne. eauto.
    + rewrite (handlePaymentFailure_unknown _ _ _ _ Hget0) in Hget. eauto.
  - rewrite processWebhook_store in Hget. eauto.
Qed.

(** A payment that an order points to and that points back to the order
    is, up to its two instants, the record [verifyPayment] builds from the
    order. *)
Lemma reachable_linked cfg s :
  reachable cfg s ->
  forall k o pid p,
    map_get k (orders s) = Some o ->
    Order.paymentId o = Some pid ->
    map_get pid (payments s) = Some p ->
    Payment.orderId p = k ->
    same_but_timestamps p (payment_record pid k o 0 0).
Proof.
  induction 1 as [|c s Hr IH]; intros k o pid p Hget Hpid Hp Hback;
    [discriminate|].
  destruct c as [now_id rnd now_c uid pt ud | t1 t2 pd | now oid err | ev];
    cbn [exec] in Hget, Hp.
  - unfold createOrder in Hget, Hp.
    destruct (plans_get pt); [|eauto]. destruct ud; [|eauto].
    cbn [fst orders payments] in Hget, Hp.
    destruct (String.eqb_spec (make_order_id now_id rnd) k) as [<-|Hne].
    + rewrite map_get_set_same in Hget. inversion Hget; subst o. discriminate.
    + rewrite map_get_set_other in Hget by exact Hne. eauto.
  - destruct (verifyPayment cfg t1 t2 pd s) as [s' [r|e]] eqn:E;
      cbn [fst] in Hget, Hp.
    + destruct (verifyPayment_return_inv _ _ _ _ _ _ _ E)
        as (oid & pid0 & sg & o0 & _ & _ & _ & Hget0 & _ & -> & _).
      cbn [orders payments] in Hget, Hp.
      destruct (String.eqb_spec pid0 pid) as [<-|Hnp].
      * rewrite map_get_set_same in Hp. inversion Hp; subst p.
        cbn in Hback. subst k.
        rewrite map_get_set_same in Hget. inversion Hget; subst o.
        repeat split.
      * rewrite map_get_set_other in Hp by exact Hnp.
        destruct (String.eqb_spec oid k) as [<-|Hne].
        -- rewrite map_get_set_same in Hget. inversion Hget; subst o.
           cbn in Hpid. congruence.
        -- rewrite map_get_set_other in Hget by exact Hne. eauto.
    + rewrite (verifyPayment_throw_unchanged _ _ _ _ _ _ _ E) in Hget, Hp. eauto.
  - destruct (map_get oid (orders s)) as [o0|] eqn:Hget0.
    + rewrite (handlePaymentFailure_store _ _ _ _ _ Hget0) in Hget, Hp.
      cbn [orders payments] in Hget, Hp.
      destruct (String.eqb_spec oid k) as [<-|Hne].
      * rewrite map_get_set_same in Hget. inversion Hget; subst o.
        cbn in Hpid. exact (IH _ _ _ _ Hget0 Hpid Hp Hback).
      * rewrite map_get_set_other in Hget by exact Hne. eauto.
    + rewrite (handlePaymentFailure_unknown _ _ _ _ Hget0) in Hget, Hp. eauto.
  - rewrite processWebhook_store in Hget, Hp. eauto.
Qed.

Lemma reachable_run cfg calls s : reachable cfg s -> reachable cfg (run cfg calls s).
Proof.
  revert s. induction calls as [|c calls IH]; intros s Hr; [exact Hr|].
  cbn [run fold_left]. apply IH. now constructor.
Qed.

Lemma reachable_after_verify : reachable Scenario.cfg Scenario.after_verify.
Proof.
  exact (reachable_step Scenario.cfg
           (CallVerifyPayment 1700000001000 1700000001000 Scenario.confirmation)
           Scenario.after_create reachable_after_create).
Qed.

Lemma reachable_paid_then_failed : reachable Scenario.cfg Runs.paid_then_failed.
Proof.
  exact (reachable_step Scenario.cfg
           (CallHandlePaymentFailure 1700000003000 Scenario.order_id
              (Some Scenario.failure))
           Scenario.after_verify reachable_after_verify).
Qed.

Lemma reachable_id_generated_again :
  reachable Scenario.cfg Runs.id_generated_again.
Proof.
  exact (reachable_step Scenario.cfg
           (CallCreateOrder 1700000000000 "abc123xyz" 1700000007000
              "u9" "basic" (Some Scenario.details))
           Scenario.after_verify reachable_after_verify).
Qed.

(** ** C1: replay of a confirmation *)

(** C1 (as the code has it).  In every store the service can reach, for
    every stored order that carries a payment id and every validly signed
    confirmation of that order and payment id: a Payment is stored under
    the id, and [verifyPayment] succeeds again.  It adds no record (the
    order keys and the payment keys are unchanged, and exactly one Payment
    is stored under the id), but it is not a no-op in general.  The order
    is stored again with status [paid], so an order that was marked
    [failed] after its payment is flipped back, and is unchanged only if it
    was still [paid].  The Payment under the id is replaced by a newly built
    record with the order's data and the clock readings [t3], [t4] of this
    call; when the stored Payment was this order's, the new one differs
    from it at most in those two instants, and store and returned records
    are the old ones only if the order was [paid] and the readings are the
    stored ones.  Second part: for two calls in a row with the same
    confirmation, the second leaves the order store as the first left it
    and returns the same order, with a Payment equal to the first one
    except for [createdAt] and [verifiedAt]. *)
Theorem C1_replay_rebuilds_payment :
  (forall cfg t3 t4 pd s oid pid sg o,
     reachable cfg s ->
     map_get oid (orders s) = Some o ->
     Order.paymentId o = Some pid ->
     PaymentData.razorpay_order_id pd = Some oid ->
     PaymentData.razorpay_payment_id pd = Some pid ->
     PaymentData.razorpay_signature pd = Some sg ->
     valid_signature cfg oid pid sg ->
     exists p0 s2 r2,
       map_get pid (payments s) = Some p0 /\
       verifyPayment cfg t3 t4 pd s = (s2, Return r2) /\
       VerifyResponse.order r2 = Order.mark_paid pid o /\
       Order.status (VerifyResponse.order r2) = paid /\
       VerifyResponse.payment r2 = payment_record pid oid o t3 t4 /\
       Payment.createdAt (VerifyResponse.payment r2) = t3 /\
       Payment.verifiedAt (VerifyResponse.payment r2) = t4 /\
       orders s2 = map_set oid (VerifyResponse.order r2) (orders s) /\
       payments s2 = map_set pid (VerifyResponse.payment r2) (payments s) /\
       map_keys (orders s2) = map_keys (orders s) /\
       map_keys (payments s2) = map_keys (payments s) /\
       count_occ string_dec (map_keys (payments s2)) pid = 1%nat /\
       (Order.status o = paid ->
        orders s2 = orders s /\ VerifyResponse.order r2 = o) /\
       (Payment.orderId p0 = oid ->
        same_but_timestamps (VerifyResponse.payment r2) p0) /\
       (Payment.orderId p0 = oid -> Order.status o = paid ->
        Payment.createdAt p0 = t3 -> Payment.verifiedAt p0 = t4 ->
        s2 = s /\ VerifyResponse.payment r2 = p0)) /\
  (forall cfg t1 t2 t3 t4 pd (s s1 : Store) (r1 : VerifyResponse.t),
     map_ok (payments s) ->
     verifyPayment cfg t1 t2 pd s = (s1, Return r1) ->
     exists s2 r2,
       verifyPayment cfg t3 t4 pd s1 = (s2, Return r2) /\
       Order.paymentId (VerifyResponse.order r1)
       = Some (Payment.id (VerifyResponse.payment r1)) /\
       Order.status (VerifyResponse.order r1) = paid /\
       orders s2 = orders s1 /\
       VerifyResponse.order r2 = VerifyResponse.order r1 /\
       same_but_timestamps (VerifyResponse.payment r2) (VerifyResponse.payment r1) /\
       Payment.createdAt (VerifyResponse.payment r1) = t1 /\
       Payment.verifiedAt (VerifyResponse.payment r1) = t2 /\
       Payment.createdAt (VerifyResponse.payment r2) = t3 /\
       Payment.verifiedAt (VerifyResponse.payment r2) = t4 /\
       payments s2
       = map_set (Payment.id (VerifyResponse.payment r1))
           (VerifyResponse.payment r2) (payments s1) /\
       map_keys (payments s2) = map_keys (payments s1) /\
       count_occ string_dec (map_keys (payments s2))
         (Payment.id (VerifyResponse.payment r1)) = 1%nat /\
       (t3 = t1 -> t4 = t2 -> s2 = s1 /\ r2 = r1)).
Proof.
  split.
  - intros cfg t3 t4 pd s oid pid sg o Hr Hget Hpid Ho Hp Hs Hv.
    destruct (reachable_order_keys cfg s Hr oid o Hget) as (now & rnd & Hoid).
    destruct (reachable_store_inv cfg s Hr) as (J1 & _ & J3 & _).
    destruct (records_ok_along_runs cfg s Hr) as (_ & _ & I3 & _).
    destruct (I3 _ _ Hget) as (_ & _ & _ & _ & _ & _ & _ & O8).
    destruct (O8 pid Hpid) as (p0 & Hp0).
    exists p0. do 2 eexists.
    split; [exact Hp0|].
    split.
    { eapply verifyPayment_success; try eassumption.
      - rewrite Ho. apply js_truthy_some. subst oid. apply make_order_id_nonempty.
      - rewrite Hp. apply js_truthy_some. exact (J3 _ _ _ Hget Hpid).
      - rewrite Hs. apply js_truthy_some. red in Hv. subst sg.
        apply hmac_sha256_hex_nonempty. }
    cbn [VerifyResponse.order VerifyResponse.payment orders payments].
    do 4 (split; [reflexivity|]).
    do 2 (split; [reflexivity|]).
    split; [reflexivity|].
    split; [eapply map_keys_set_present; exact Hget|].
    split; [eapply map_keys_set_present; exact Hp0|].
    split.
    { apply NoDup_count_occ'.
      - apply map_ok_set, J1.
      - eapply map_get_in_keys. apply map_get_set_same. }
    assert (Hpaid : Order.status o = paid -> Order.mark_paid pid o = o).
    { intros Hst. destruct o. cbn in Hst, Hpid. subst. reflexivity. }
    assert (Hfields : Payment.orderId p0 = oid ->
              same_but_timestamps (payment_record pid oid o t3 t4) p0).
    { intros Hback.
      destruct (reachable_linked cfg s Hr _ _ _ _ Hget Hpid Hp0 Hback)
        as (F1 & F2 & F3 & F4 & F5 & F6 & F7 & F8 & F9).
      cbn in F1, F2, F3, F4, F5, F6, F7, F8, F9.
      repeat split; cbn; congruence. }
    split; [|split].
    + intros Hst. rewrite (Hpaid Hst). split; [|reflexivity].
      now apply map_set_same_value.
    + exact Hfields.
    + intros Hback Hst Hc Hvf.
      assert (Heq : payment_record pid oid o t3 t4 = p0).
      { destruct (Hfields Hback) as (F1 & F2 & F3 & F4 & F5 & F6 & F7 & F8 & F9).
        destruct p0. cbn in *. subst. reflexivity. }
      split; [|exact Heq].
      rewrite Heq, (Hpaid Hst).
      rewrite (map_set_same_value _ _ _ Hget), (map_set_same_value _ _ _ Hp0).
      now destruct s.
  - intros cfg t1 t2 t3 t4 pd s s1 r1 Hok H1.
    destruct (verifyPayment_return_inv _ _ _ _ _ _ _ H1)
      as (oid & pid & sg & o & Ho & Hp & Hs & Hget & Hv & -> & ->).
    cbn [orders payments].
    assert (Hget' : map_get oid (map_set oid (Order.mark_paid pid o) (orders s))
                    = Some (Order.mark_paid pid o)) by apply map_get_set_same.
    eexists; eexists. split.
    { eapply verifyPayment_success; eauto. }
    cbn [orders payments VerifyResponse.order VerifyResponse.payment
         payment_record Payment.id Payment.createdAt Payment.verifiedAt
         Order.mark_paid Order.paymentId Order.status].
    split; [reflexivity|]. split; [reflexivity|].
    split; [apply map_set_set|]. split; [reflexivity|].
    split; [repeat split|].
    do 4 (split; [reflexivity|]).
    split; [reflexivity|].
    split; [eapply map_keys_set_present; apply map_get_set_same|].
    split.
    + apply NoDup_count_occ'.
      * apply map_ok_set, map_ok_set, Hok.
      * eapply map_get_in_keys. apply map_get_set_same.
    + intros -> ->. split; [|reflexivity].
      f_equal; apply map_set_set.
Qed.

Lemma C1_replay_witness :
  (exists p0 s2 r2,
     map_get Scenario.payment_id (payments Runs.paid_then_failed) = Some p0 /\
     verifyPayment Scenario.cfg 1700000009000 1700000009001
       Scenario.confirmation Runs.paid_then_failed = (s2, Return r2) /\
     Order.status (VerifyResponse.order r2) = paid /\
     Payment.createdAt (VerifyResponse.payment r2) = 1700000009000 /\
     map_keys (payments s2) = map_keys (payments Runs.paid_then_failed)) /\
  (exists s1 r1 s2 r2,
     verifyPayment Scenario.cfg 1700000001000 1700000001000
       Scenario.confirmation Scenario.after_create = (s1, Return r1) /\
     verifyPayment Scenario.cfg 1700000009000 1700000009001
       Scenario.confirmation s1 = (s2, Return r2) /\
     orders s2 = orders s1 /\
     map_keys (payments s2) = map_keys (payments s1) /\
     Payment.createdAt (VerifyResponse.payment r2) = 1700000009000).
Proof.
  split.
  - assert (Hget : exists o,
      map_get Scenario.order_id (orders Runs.paid_then_failed) = Some o /\
      Order.paymentId o = Some Scenario.payment_id)
      by (eexists; split; [vm_compute; reflexivity | reflexivity]).
    destruct Hget as (o & Hget & Hpid).
    destruct (proj1 C1_replay_rebuilds_payment Scenario.cfg
                1700000009000 1700000009001 Scenario.confirmation
                Runs.paid_then_failed Scenario.order_id Scenario.payment_id
                Scenario.signature o reachable_paid_then_failed Hget Hpid
                eq_refl eq_refl eq_refl scenario_signature_valid)
      as (p0 & s2 & r2 & H1 & H2 & _ & H3 & _ & H4 & _ & _ & _ & _ & H5 & _).
    exists p0, s2, r2. exact (conj H1 (conj H2 (conj H3 (conj H4 H5)))).
  - eexists; eexists.
    assert (Hok : map_ok (payments Scenario.after_create))
      by (vm_compute; constructor).
    assert (Hfirst :
      verifyPayment Scenario.cfg 1700000001000 1700000001000
        Scenario.confirmation Scenario.after_create
      = (Scenario.after_verify,
         Return (VerifyResponse.mk true
                   (payment_record Scenario.payment_id Scenario.order_id
                      (Order.mk Scenario.order_id "order" (Num 29900) "INR" created 0
                         1700000000
                         (Notes.mk "u1" "standard" "Asha" "9999999999")
                         "u1" "standard" Scenario.details
                         (OwnPlan (Plan.mk 10 299 "Standard Plan")) None None None)
                      1700000001000 1700000001000)
                   (Order.mk Scenario.order_id "order" (Num 29900) "INR" paid 0
                      1700000000
                      (Notes.mk "u1" "standard" "Asha" "9999999999")
                      "u1" "standard" Scenario.details
                      (OwnPlan (Plan.mk 10 299 "Standard Plan"))
                      (Some Scenario.payment_id) None None))))
      by (vm_compute; reflexivity).
    destruct (proj2 C1_replay_rebuilds_payment Scenario.cfg
                1700000001000 1700000001000 1700000009000 1700000009001
                Scenario.confirmation Scenario.after_create _ _ Hok Hfirst)
      as (s2 & r2 & H2 & _ & _ & Ho & _ & _ & _ & _ & Hc & _ & _ & Hk & _).
    exists s2, r2.
    exact (conj Hfirst (conj H2 (conj Ho (conj Hk Hc)))).
Defined.

(** C1 fails as stated.  After the confirmation of the scenario has been
    accepted (the order carries payment id [pay_1]), the same confirmation
    eight seconds later succeeds with a Payment that is not the stored one,
    changes the store, and gives a response that is not the first one.  And
    when the paid order has since been reported failed (it keeps its
    payment id), the same confirmation changes the stored order: its
    status goes from [failed] back to [paid]. *)
Lemma C1_counterexample :
  (exists o p1 r1 s2 r2,
     map_get Scenario.order_id (orders Scenario.after_verify) = Some o /\
     Order.paymentId o = Some Scenario.payment_id /\
     map_get Scenario.payment_id (payments Scenario.after_verify) = Some p1 /\
     verifyPayment Scenario.cfg 1700000001000 1700000001000
       Scenario.confirmation Scenario.after_create
     = (Scenario.after_verify, Return r1) /\
     verifyPayment Scenario.cfg 1700000009000 1700000009000
       Scenario.confirmation Scenario.after_verify = (s2, Return r2) /\
     VerifyResponse.payment r2 <> p1 /\
     s2 <> Scenario.after_verify /\
     r2 <> r1) /\
  (exists o s2 r2 o2,
     map_get Scenario.order_id (orders Runs.paid_then_failed) = Some o /\
     Order.paymentId o = Some Scenario.payment_id /\
     Order.status o = failed /\
     verifyPayment Scenario.cfg 1700000009000 1700000009000
       Scenario.confirmation Runs.paid_then_failed = (s2, Return r2) /\
     map_get Scenario.order_id (orders s2) = Some o2 /\
     Order.status o2 = paid /\
     o2 <> o).
Proof.
  split.
  - do 5 eexists.
    split; [vm_compute; reflexivity|].
    split; [reflexivity|].
    split; [vm_compute; reflexivity|].
    split; [vm_compute; reflexivity|].
    split; [vm_compute; reflexivity|].
    split; [|split].
    + intros H. apply (f_equal Payment.createdAt) in H. discriminate H.
    + intros H.
      apply (f_equal (fun st => map_get Scenario.payment_id (payments st))) in H.
      vm_compute in H. discriminate H.
    + intros H.
      apply (f_equal (fun r => Payment.createdAt (VerifyResponse.payment r))) in H.
      discriminate H.
  - do 4 eexists.
    split; [vm_compute; reflexivity|].
    split; [reflexivity|]. split; [reflexivity|].
    split; [vm_compute; reflexivity|].
    split; [vm_compute; reflexivity|].
    split; [reflexivity|].
    intros H. apply (f_equal Order.status) in H. discriminate H.
Qed.

(** ** C9: the payment history *)

Lemma sort_insert_map {A B : Type} (f : A -> B)
    (cmpA : A -> A -> Z) (cmpB : B -> B -> Z) x l :
  (forall a b, cmpB (f a) (f b) = cmpA a b) ->
  sort_insert cmpB (f x) (map f l) = map f (sort_insert cmpA x l).
Proof.
  intros Hc. induction l as [|y l IH]; [reflexivity|].
  cbn [map sort_insert]. rewrite Hc.
  destruct (cmpA x y <=? 0); [reflexivity|].
  cbn [map]. now rewrite IH.
Qed.

Lemma array_sort_map {A B : Type} (f : A -> B)
    (cmpA : A -> A -> Z) (cmpB : B -> B -> Z) l :
  (forall a b, cmpB (f a) (f b) = cmpA a b) ->
  array_sort cmpB (map f l) = map f (array_sort cmpA l).
Proof.
  intros Hc. induction l as [|x l IH]; [reflexivity|].
  cbn [map array_sort fold_right].
  change (fold_right (sort_insert cmpB) [] (map f l))
    with (array_sort cmpB (map f l)).
  change (fold_right (sort_insert cmpA) [] l) with (array_sort cmpA l).
  rewrite IH. now apply sort_insert_map.
Qed.

Lemma filter_map_snd {K V : Type} (f : V -> bool) (l : list (K * V)) :
  filter f (map snd l) = map snd (filter (fun kv => f (snd kv)) l).
Proof.
  induction l as [|[k v] l IH]; [reflexivity|].
  cbn [map filter snd]. destruct (f v); cbn [map snd]; now rewrite IH.
Qed.

Lemma listed_as_history_entry p : listed_as p (history_entry p).
Proof.
  unfold listed_as, history_entry. cbn.
  split; [reflexivity|]. split; [reflexivity|].
  split; [now destruct (Payment.amount p)|]. split; [reflexivity|].
  split; [destruct (Payment.plan p); cbn; auto|]. split; reflexivity.
Qed.

Lemma Forall2_listed ps : Forall2 listed_as ps (map history_entry ps).
Proof.
  induction ps; cbn; constructor; auto using listed_as_history_entry.
Qed.

(** The history is the stable sort of the user's payments. *)
Lemma getUserPayments_sorted_payments userId s :
  getUserPayments userId s
  = map history_entry
      (array_sort (fun p q => Payment.createdAt q - Payment.createdAt p)
         (map snd
            (filter (fun kp => String.eqb (Payment.userId (snd kp)) userId)
               (payments s)))).
Proof.
  unfold getUserPayments, user_payments, map_values.
  rewrite filter_map_snd. apply array_sort_map. reflexivity.
Qed.

Lemma map_set_absent_append {V : Type} (k : string) (v : V) (m : JSMap V) :
  map_get k m = None -> map_set k v m = m ++ [(k, v)].
Proof.
  induction m as [|[k0 v0] m IH]; cbn; [reflexivity|].
  destruct (String.eqb k0 k); [discriminate|]. intros H. now rewrite IH.
Qed.

Lemma map_set_present_split {V : Type} (k : string) (v v0 : V) (m : JSMap V) :
  map_get k m = Some v0 ->
  exists l1 l2, m = l1 ++ (k, v0) :: l2 /\ map_set k v m = l1 ++ (k, v) :: l2.
Proof.
  induction m as [|[k1 v1] m IH]; cbn; [discriminate|].
  destruct (String.eqb_spec k1 k) as [->|Hne]; intros H.
  - inversion H; subst v1. exists [], m. auto.
  - destruct (IH H) as (l1 & l2 & -> & ->).
    exists ((k1, v1) :: l1), l2. auto.
Qed.

(** C9.  [getUserPayments userId] lists the payments [ps], one entry
    each and in this order, where [ps] holds exactly the payments of the
    store that [userId] owns, each as often as the store holds it; [ps] is
    in descending order of creation time; and payments created at the same
    instant stand in [ps] in the order in which the payment [Map] holds
    them.  That order is the order of insertion: a payment [verifyPayment]
    stores under a new id goes last, and one it stores under an id already
    present takes the place of the record it replaces.  For three payments
    of the user made at instants T1 < T2 < T3 the entries are those of T3,
    T2, T1, in this order. *)
Theorem C9_history_sorted userId s :
  (exists ps,
     Forall2 listed_as ps (getUserPayments userId s) /\
     Permutation ps
       (map snd (filter (fun kp => String.eqb (Payment.userId (snd kp)) userId)
                   (payments s))) /\
     (forall p, In p ps
                <-> (exists k, In (k, p) (payments s)) /\ Payment.userId p = userId) /\
     StronglySorted (fun p q => Payment.createdAt q <= Payment.createdAt p) ps /\
     (forall t,
        filter (fun p => Payment.createdAt p =? t) ps
        = filter (fun p => Payment.createdAt p =? t)
            (map snd (filter (fun kp => String.eqb (Payment.userId (snd kp)) userId)
                        (payments s))))) /\
  (forall cfg t1 t2 pd s' r,
     verifyPayment cfg t1 t2 pd s = (s', Return r) ->
     (map_get (Payment.id (VerifyResponse.payment r)) (payments s) = None ->
      payments s'
      = payments s
        ++ [(Payment.id (VerifyResponse.payment r), VerifyResponse.payment r)]) /\
     (forall p0,
        map_get (Payment.id (VerifyResponse.payment r)) (payments s) = Some p0 ->
        exists before after,
          payments s
          = before ++ (Payment.id (VerifyResponse.payment r), p0) :: after /\
          payments s'
          = before
            ++ (Payment.id (VerifyResponse.payment r), VerifyResponse.payment r)
               :: after)) /\
  (forall p1 p2 p3,
     Permutation
       (map snd (filter (fun kp => String.eqb (Payment.userId (snd kp)) userId)
                   (payments s)))
       [p1; p2; p3] ->
     Payment.createdAt p1 < Payment.createdAt p2 ->
     Payment.createdAt p2 < Payment.createdAt p3 ->
     exists e1 e2 e3,
       getUserPayments userId s = [e3; e2; e1] /\
       listed_as p1 e1 /\ listed_as p2 e2 /\ listed_as p3 e3).
Proof.
  rewrite getUserPayments_sorted_payments.
  set (owned := map snd (filter (fun kp => String.eqb (Payment.userId (snd kp)) userId)
                           (payments s))).
  set (cmp := fun p q : Payment.t => Payment.createdAt q - Payment.createdAt p).
  assert (Htot : forall x y, 0 < cmp x y -> cmp y x <= 0)
    by (unfold cmp; intros; lia).
  assert (Htr : forall x y z, cmp x y <= 0 -> cmp y z <= 0 -> cmp x z <= 0)
    by (unfold cmp; intros; lia).
  split; [|split].
  - exists (array_sort cmp owned).
    split; [apply Forall2_listed|].
    split; [apply array_sort_perm|].
    split.
    { intros p. split.
      - intros Hin. apply (Permutation_in _ (array_sort_perm cmp owned)) in Hin.
        unfold owned in Hin. apply in_map_iff in Hin as ([k p'] & Heq & Hin).
        cbn in Heq. subst p'. apply filter_In in Hin as [Hin Hu].
        cbn in Hu. apply String.eqb_eq in Hu. eauto.
      - intros [[k Hin] Hu].
        apply (Permutation_in _ (Permutation_sym (array_sort_perm cmp owned))).
        unfold owned. change p with (snd (k, p)). apply in_map.
        apply filter_In. split; [exact Hin|]. cbn. now apply String.eqb_eq. }
    split.
    { eapply StronglySorted_weaken; [|apply array_sort_sorted; assumption].
      unfold cmp. intros a b. cbn beta. lia. }
    intros t. apply array_sort_stable.
    unfold cmp. intros a b Ha Hb. apply Z.eqb_eq in Ha, Hb. lia.
  - intros cfg t1 t2 pd s' r Hv.
    destruct (verifyPayment_return_inv _ _ _ _ _ _ _ Hv)
      as (oid & pid & sg & o & _ & _ & _ & _ & _ & -> & ->).
    cbn [VerifyResponse.payment payment_record Payment.id payments].
    split.
    + apply map_set_absent_append.
    + intros p0 Hp0. now apply map_set_present_split.
  - intros p1 p2 p3 Hperm H12 H23.
    exists (history_entry p1), (history_entry p2), (history_entry p3).
    split; [|auto using listed_as_history_entry].
    change [history_entry p3; history_entry p2; history_entry p1]
      with (map history_entry [p3; p2; p1]).
    f_equal. apply sorted_unique with (compare := cmp).
    + apply array_sort_sorted; assumption.
    + unfold cmp. repeat constructor; lia.
    + rewrite array_sort_perm, Hperm.
      apply Permutation_trans with (l' := [p2; p3; p1]).
      * apply perm_trans with (l' := [p2; p1; p3]).
        -- apply perm_swap.
        -- apply perm_skip, perm_swap.
      * apply perm_swap.
Qed.

Lemma C9_history_witness :
  (exists ps,
     Forall2 listed_as ps (getUserPayments "u1" Runs.tie_store) /\
     filter (fun p => Payment.createdAt p =? 2000) ps
     = [Scenario.pay "pay_b" "u1" 2000; Scenario.pay "pay_c" "u1" 2000]) /\
  (exists e1 e2 e3,
     getUserPayments "u1" Scenario.history_store = [e3; e2; e1] /\
     listed_as (Scenario.pay "pay_a" "u1" 1000) e1 /\
     listed_as (Scenario.pay "pay_b" "u1" 2000) e2 /\
     listed_as (Scenario.pay "pay_c" "u1" 3000) e3).
Proof.
  split.
  - destruct (proj1 (C9_history_sorted "u1" Runs.tie_store))
      as (ps & HF & _ & _ & _ & Ht).
    exists ps. split; [exact HF|]. rewrite (Ht 2000). vm_compute. reflexivity.
  - refine (proj2 (proj2 (C9_history_sorted "u1" Scenario.history_store))
              (Scenario.pay "pay_a" "u1" 1000) (Scenario.pay "pay_b" "u1" 2000)
              (Scenario.pay "pay_c" "u1" 3000) _ _ _).
    + vm_compute. apply Permutation_sym.
      exact (Permutation_cons_append
               [Scenario.pay "pay_b" "u1" 2000; Scenario.pay "pay_c" "u1" 3000]
               (Scenario.pay "pay_a" "u1" 1000)).
    + vm_compute. reflexivity.
    + vm_compute. reflexivity.
Defined.

(** The history of [u1] over the store with a tie: [pay_b] and [pay_c],
    made at the same instant, come in the order the [Map] received them,
    before the older [pay_a]; the payment of [u2] is not listed. *)
Example history_with_a_tie :
  getUserPayments "u1" Runs.tie_store
  = [ HistoryEntry.mk "pay_b" Scenario.order_id (Quot (29900 # 100)) "standard"
        (Some "Standard Plan") (Some 10) "captured" 2000;
      HistoryEntry.mk "pay_c" Scenario.order_id (Quot (29900 # 100)) "standard"
        (Some "Standard Plan") (Some 10) "captured" 2000;
      HistoryEntry.mk "pay_a" Scenario.order_id (Quot (29900 # 100)) "standard"
        (Some "Standard Plan") (Some 10) "captured" 1000 ].
Proof. vm_compute. reflexivity. Qed.

(** ** C10: the two read operations report different units *)

(** The figures of a stored payment and of the order stored under [k],
    when the two amounts agree. *)
Lemma both_views s k o pid p :
  store_inv s ->
  map_get k (orders s) = Some o ->
  map_get pid (payments s) = Some p ->
  Payment.amount p = Order.amount o ->
  amount_in_both_views s k pid (Payment.userId p) (Order.amount o).
Proof.
  intros (I1 & I2 & _ & _) Hget Hp Hamt.
  exists (StatusSnapshot.mk
            (OrderSnapshot.mk (Order.id o) (Order.amount o) (Order.status o)
               (Order.created_at o))
            (option_map
               (fun q => PaymentSnapshot.mk (Payment.id q) (Payment.status q)
                           (Payment.method q) (Payment.verifiedAt q))
               match js_truthy (Order.paymentId o) with
               | Some pid' => map_get pid' (payments s)
               | None => None
               end)),
         (history_entry p).
  split; [unfold getPaymentStatus; now rewrite Hget|].
  split; [reflexivity|].
  split; [eapply history_entry_in, map_get_In; exact Hp|].
  split; [cbn; eauto|].
  split.
  { intros e' Hin Hid.
    destruct (history_entry_of _ _ _ Hin) as (k' & p' & Hin' & ->).
    apply (map_In_get _ _ _ I1) in Hin'.
    pose proof (I2 _ _ Hin') as Hk. cbn in Hid.
    assert (k' = pid) by congruence. subst k'.
    replace p' with p by congruence. reflexivity. }
  split.
  { cbn. rewrite Hamt. now destruct (Order.amount o). }
  intros z Hz. exists (z # 100)%Q. split.
  - cbn. now rewrite Hamt, Hz.
  - unfold Qeq, Qmult, inject_Z. cbn. lia.
Qed.

(** As long as no [createOrder] generates the order id [k] again, the
    order under [k] keeps its amount [a], and whatever payment of that
    order is stored under [pid] has the amount [a] too. *)
Lemma amount_kept_along_run cfg calls k pid a :
  (forall c, In c calls -> ~ generates_order_id k c) ->
  forall s,
    (exists o, map_get k (orders s) = Some o /\ Order.amount o = a) ->
    (forall p, map_get pid (payments s) = Some p ->
               Payment.orderId p = k -> Payment.amount p = a) ->
    (exists o, map_get k (orders (run cfg calls s)) = Some o /\ Order.amount o = a) /\
    (forall p, map_get pid (payments (run cfg calls s)) = Some p ->
               Payment.orderId p = k -> Payment.amount p = a).
Proof.
  induction calls as [|c calls IH]; intros Hno s Ho Hp; [now split|].
  cbn [run fold_left]. apply IH.
  { intros c' Hin. apply Hno. now right. }
  all: assert (Hc : ~ generates_order_id k c) by (apply Hno; now left);
    destruct Ho as (o & Hget & Ha);
    destruct c as [now_id rnd now_c uid pt ud | t1 t2 pd | now oid err | ev];
    cbn [exec generates_order_id] in *.
  - unfold createOrder. destruct (plans_get pt); [|eauto]. destruct ud; [|eauto].
    cbn [fst orders]. rewrite map_get_set_other by exact Hc. eauto.
  - destruct (verifyPayment cfg t1 t2 pd s) as [s' [r|e]] eqn:E; cbn [fst].
    + destruct (verifyPayment_return_inv _ _ _ _ _ _ _ E)
        as (oid & pid0 & sg & o0 & _ & _ & _ & Hget0 & _ & -> & _).
      cbn [orders].
      destruct (String.eqb_spec oid k) as [->|Hne].
      * rewrite map_get_set_same. eexists. split; [reflexivity|].
        cbn. congruence.
      * rewrite map_get_set_other by exact Hne. eauto.
    + rewrite (verifyPayment_throw_unchanged _ _ _ _ _ _ _ E). eauto.
  - destruct (map_get oid (orders s)) as [o0|] eqn:Hget0.
    + rewrite (handlePaymentFailure_store _ _ _ _ _ Hget0). cbn [orders].
      destruct (String.eqb_spec oid k) as [->|Hne].
      * rewrite map_get_set_same. eexists. split; [reflexivity|].
        cbn. congruence.
      * rewrite map_get_set_other by exact Hne. eauto.
    + rewrite (handlePaymentFailure_unknown _ _ _ _ Hget0). eauto.
  - rewrite processWebhook_store. eauto.
  - unfold createOrder. destruct (plans_get pt); [|exact Hp].
    destruct ud; [|exact Hp]. exact Hp.
  - destruct (verifyPayment cfg t1 t2 pd s) as [s' [r|e]] eqn:E; cbn [fst].
    + destruct (verifyPayment_return_inv _ _ _ _ _ _ _ E)
        as (oid & pid0 & sg & o0 & _ & _ & _ & Hget0 & _ & -> & _).
      cbn [payments]. intros p Hget' Hback.
      destruct (String.eqb_spec pid0 pid) as [->|Hne].
      * rewrite map_get_set_same in Hget'. inversion Hget'; subst p.
        cbn in Hback. subst oid. cbn. congruence.
      * rewrite map_get_set_other in Hget' by exact Hne. eauto.
    + rewrite (verifyPayment_throw_unchanged _ _ _ _ _ _ _ E). exact Hp.
  - unfold handlePaymentFailure.
    destruct (map_get oid (orders s)); destruct err; exact Hp.
  - rewrite processWebhook_store. exact Hp.
Qed.

(** C10 (as the code has it).  The two read operations report amounts in
    different units: in every store the service can reach,
    [getUserPayments] lists each stored payment once, with the payment's
    amount divided by 100, and [getPaymentStatus] reports an order's amount
    exactly as stored.  For a payment [verifyPayment] has accepted, and
    after any further calls among which no [createOrder] generates the
    payment's order id again: whatever payment of that order is then stored
    under the payment id has the amount of the accepted one, the status of
    the order shows that amount, and the history figure is that amount
    divided by 100, so 100 times the history figure is the status
    figure. *)
Theorem C10_history_amount_is_status_amount_over_100 :
  (forall cfg s pid p,
     reachable cfg s ->
     map_get pid (payments s) = Some p ->
     exists e,
       In e (getUserPayments (Payment.userId p) s) /\
       HistoryEntry.id e = pid /\
       (forall e', In e' (getUserPayments (Payment.userId p) s) ->
                   HistoryEntry.id e' = pid -> e' = e) /\
       HistoryEntry.amount e
       = match Payment.amount p with
         | Num z => Quot (z # 100)
         | NaN => QuotNaN
         end) /\
  (forall s oid o,
     map_get oid (orders s) = Some o ->
     exists snap,
       getPaymentStatus oid s = Some snap /\
       OrderSnapshot.amount (StatusSnapshot.order snap) = Order.amount o) /\
  (forall cfg t1 t2 pd s s1 r calls p,
     reachable cfg s ->
     verifyPayment cfg t1 t2 pd s = (s1, Return r) ->
     (forall c, In c calls ->
        ~ generates_order_id (Payment.orderId (VerifyResponse.payment r)) c) ->
     map_get (Payment.id (VerifyResponse.payment r)) (payments (run cfg calls s1))
     = Some p ->
     Payment.orderId p = Payment.orderId (VerifyResponse.payment r) ->
     Payment.amount p = Payment.amount (VerifyResponse.payment r) /\
     amount_in_both_views (run cfg calls s1)
       (Payment.orderId (VerifyResponse.payment r))
       (Payment.id (VerifyResponse.payment r))
       (Payment.userId p)
       (Payment.amount (VerifyResponse.payment r))).
Proof.
  split; [|split].
  - intros cfg s pid p Hr Hp.
    destruct (reachable_store_inv cfg s Hr) as (I1 & I2 & _ & _).
    exists (history_entry p).
    split; [eapply history_entry_in, map_get_In; exact Hp|].
    split; [cbn; eauto|].
    split.
    + intros e' Hin Hid.
      destruct (history_entry_of _ _ _ Hin) as (k' & p' & Hin' & ->).
      apply (map_In_get _ _ _ I1) in Hin'.
      pose proof (I2 _ _ Hin') as Hk. cbn in Hid.
      assert (k' = pid) by congruence. subst k'.
      replace p' with p by congruence. reflexivity.
    + cbn. now destruct (Payment.amount p).
  - intros s oid o Hget. unfold getPaymentStatus. rewrite Hget.
    eexists. split; reflexivity.
  - intros cfg t1 t2 pd s s1 r calls p Hr Hv Hno Hp Hback.
    assert (Hr1 : reachable cfg s1).
    { replace s1 with (exec cfg (CallVerifyPayment t1 t2 pd) s)
        by (cbn [exec]; now rewrite Hv).
      now constructor. }
    pose proof (reachable_store_inv cfg _ (reachable_run cfg calls s1 Hr1)) as Hinv.
    destruct (verifyPayment_return_inv _ _ _ _ _ _ _ Hv)
      as (oid & pid & sg & o & _ & _ & _ & Hget & _ & Hs1 & ->).
    cbn [VerifyResponse.payment payment_record Payment.orderId Payment.id
         Payment.amount] in *.
    destruct (amount_kept_along_run cfg calls oid pid (Order.amount o) Hno s1)
      as ((o2 & Hget2 & Ha2) & Hp2).
    { subst s1. cbn [orders]. rewrite map_get_set_same. eauto. }
    { subst s1. cbn [payments]. intros q Hq _.
      rewrite map_get_set_same in Hq. now inversion Hq. }
    pose proof (Hp2 p Hp Hback) as Hamt.
    split; [exact Hamt|].
    rewrite <- Ha2. apply both_views; try assumption. congruence.
Qed.

Lemma C10_history_amount_witness :
  exists p,
    map_get Scenario.payment_id
      (payments (run Scenario.cfg
                   [CallVerifyPayment 1700000004000 1700000004000
                      Runs.second_confirmation]
                   Scenario.after_verify)) = Some p /\
    amount_in_both_views
      (run Scenario.cfg
         [CallVerifyPayment 1700000004000 1700000004000 Runs.second_confirmation]
         Scenario.after_verify)
      Scenario.order_id Scenario.payment_id (Payment.userId p) (Num 29900).
Proof.
  assert (Hrun :
    verifyPayment Scenario.cfg 1700000001000 1700000001000
      Scenario.confirmation Scenario.after_create
    = (Scenario.after_verify,
       Return (VerifyResponse.mk true
                 (payment_record Scenario.payment_id Scenario.order_id
                    (Order.mk Scenario.order_id "order" (Num 29900) "INR" created 0
                       1700000000 (Notes.mk "u1" "standard" "Asha" "9999999999")
                       "u1" "standard" Scenario.details
                       (OwnPlan (Plan.mk 10 299 "Standard Plan")) None None None)
                    1700000001000 1700000001000)
                 (Order.mark_paid Scenario.payment_id
                    (Order.mk Scenario.order_id "order" (Num 29900) "INR" created 0
                       1700000000 (Notes.mk "u1" "standard" "Asha" "9999999999")
                       "u1" "standard" Scenario.details
                       (OwnPlan (Plan.mk 10 299 "Standard Plan")) None None None)))))
    by (vm_compute; reflexivity).
  assert (Hp : exists p,
    map_get Scenario.payment_id
      (payments (run Scenario.cfg
                   [CallVerifyPayment 1700000004000 1700000004000
                      Runs.second_confirmation]
                   Scenario.after_verify)) = Some p /\
    Payment.orderId p = Scenario.order_id)
    by (eexists; split; [vm_compute; reflexivity | reflexivity]).
  destruct Hp as (p & Hp & Hback).
  exists p. split; [exact Hp|].
  refine (proj2 (proj2 (proj2 C10_history_amount_is_status_amount_over_100)
                   Scenario.cfg 1700000001000 1700000001000 Scenario.confirmation
                   Scenario.after_create Scenario.after_verify _
                   [CallVerifyPayment 1700000004000 1700000004000
                      Runs.second_confirmation]
                   p reachable_after_create Hrun _ Hp Hback)).
  intros c [<-|[]] H. exact H.
Defined.

(** C10 fails as stated.  The payment [pay_1] of the scenario was accepted
    for the order of plan [standard]; then a [createOrder] generated the
    same order id again, for plan [basic].  The history of [u1] lists
    [pay_1] with 29900 / 100, while the status of its order shows 19900:
    the history figure is not 1/100 of the status figure. *)
Lemma C10_counterexample :
  reachable Scenario.cfg Runs.id_generated_again /\
  exists p snap e,
    map_get Scenario.payment_id (payments Runs.id_generated_again) = Some p /\
    Payment.orderId p = Scenario.order_id /\
    getPaymentStatus (Payment.orderId p) Runs.id_generated_again = Some snap /\
    OrderSnapshot.amount (StatusSnapshot.order snap) = Num 19900 /\
    getUserPayments (Payment.userId p) Runs.id_generated_again = [e] /\
    HistoryEntry.id e = Scenario.payment_id /\
    HistoryEntry.amount e = Quot (29900 # 100) /\
    ~ ((29900 # 100) * 100 == inject_Z 19900)%Q.
Proof.
  split; [exact reachable_id_generated_again|].
  do 3 eexists.
  split; [vm_compute; reflexivity|].
  split; [reflexivity|].
  split; [vm_compute; reflexivity|].
  split; [reflexivity|].
  split; [vm_compute; reflexivity|].
  split; [reflexivity|]. split; [reflexivity|].
  unfold Qeq. cbn. lia.
Qed.
